(** * django-timepiece, [timepiece/crm/views.py]: a shallow embedding

    The view layer of the timesheet application: the permission gate of the
    user timesheet views, the weekly buckets and the month entries of the
    AJAX timesheet, the project timesheet aggregation with its CSV export,
    and the user-project relationship views.

    Conventions.
    - A naive [datetime] is the number of microseconds on the proleptic
      timeline, a [date] is its ordinal day; Python's bounds on the year
      (1..9999) are not modelled.
    - [hours] is the fixed-point decimal of the [Entry] model, kept as the
      integer number of hundredths of an hour.
    - The database is a record of tables; a view runs in the monad [M], which
      threads the database and the log of the queries sent to it and may
      raise one of Django's exceptions.
    - Code that the views call but that lives in other modules of the
      application (forms, utils, query-set methods) or in its libraries
      (dateutil, strftime, the reads of Django's permission check) is
      gathered in the class [Collaborators]. *)

From Equations Require Import Equations.
From Stdlib Require Import String ZArith List Bool Lia Permutation Sorted.
Import ListNotations.
Open Scope string_scope.
Open Scope list_scope.
Open Scope Z_scope.

(** ** Time *)

Definition datetime := Z.
Definition date := Z.

Definition microseconds_per_day : Z := 86400 * 1000000.

(** [relativedelta(days=n)] and [relativedelta(microseconds=n)], as the
    amount they add to a naive datetime. *)
Definition relativedelta_days (n : Z) : Z := n * microseconds_per_day.
Definition relativedelta_microseconds (n : Z) : Z := n.

(** ** Data model (the rows the views read and write) *)

Record User := {
  user_pk : Z;
  first_name : string;
  last_name : string;
  (** the permissions [has_perm] answers yes to *)
  user_permissions : list string
}.

(** [request.user]: a stored user, or Django's [AnonymousUser]. *)
Inductive Requester :=
| AnonymousUser
| Authenticated (u : User).

(** What [request.user.has_perm(perm)] answers; the reads of the permission
    tables it makes on the way are in [user_has_perm] below. *)
Definition has_perm (r : Requester) (perm : string) : bool :=
  match r with
  | AnonymousUser => false
  | Authenticated u => existsb (String.eqb perm) (user_permissions u)
  end.

(** [request.user == other]: model instances are equal when their primary
    keys are; the anonymous user equals no stored user. *)
Definition requester_eq (r : Requester) (other : User) : bool :=
  match r with
  | AnonymousUser => false
  | Authenticated u => user_pk u =? user_pk other
  end.

Record Project := {
  project_pk : Z;
  project_name : string
}.

Record ProjectRelationship := {
  relationship_pk : Z;
  relationship_user : Z;
  relationship_project : Z
}.

Record Entry := {
  entry_id : Z;
  entry_user : User;
  entry_project : Z;
  entry_activity_name : string;
  entry_location_name : string;
  entry_start_time : datetime;
  (** [None] while the entry is still running *)
  entry_end_time : option datetime;
  entry_seconds_paused : Z;
  entry_hours : Z
}.

Record DB := {
  users : list User;
  projects : list Project;
  relationships : list ProjectRelationship;
  entries : list Entry
}.

(** ** Requests *)

Definition QueryDict := list (string * string).

(** [REQUEST] is the merged GET/POST dictionary restricted to its id-valued
    parameters, read as integers; a parameter that is missing (or empty, which
    Python also treats as false) has no binding. *)
Record Request := {
  user : Requester;
  GET : QueryDict;
  POST : QueryDict;
  REQUEST : list (string * Z)
}.

Fixpoint REQUEST_get (key : string) (params : list (string * Z)) : option Z :=
  match params with
  | [] => None
  | (k, v) :: rest => if String.eqb k key then Some v else REQUEST_get key rest
  end.

(** [data or None]: an empty dictionary is false. *)
Definition or_None (data : QueryDict) : option QueryDict :=
  match data with
  | [] => None
  | _ :: _ => Some data
  end.

Definition truthy (data : QueryDict) : bool :=
  match data with
  | [] => false
  | _ :: _ => true
  end.

(** ** The view monad: database, query log, exceptions *)

Inductive Exception :=
| Http404
| PermissionDenied
| MultipleObjectsReturned.

Inductive Outcome (A : Type) :=
| Return (a : A)
| Raise (e : Exception).
Arguments Return {A} a.
Arguments Raise {A} e.

Inductive Model :=
| ModelUser
| ModelProject
| ModelProjectRelationship
| ModelEntry
| ModelPermission.

Inductive Query :=
| Select (m : Model)
| Insert (m : Model).

Record World := {
  db : DB;
  queries : list Query
}.

Definition M (A : Type) : Type := World -> Outcome A * World.

Definition ret {A} (a : A) : M A := fun w => (Return a, w).

Definition raise {A} (e : Exception) : M A := fun w => (Raise e, w).

Definition bind {A B} (m : M A) (k : A -> M B) : M B :=
  fun w =>
    match m w with
    | (Return a, w') => k a w'
    | (Raise e, w') => (Raise e, w')
    end.

Notation "x <- m ;; k" := (bind m (fun x => k))
  (at level 61, m at next level, right associativity).
Notation "m ;; k" := (bind m (fun _ => k))
  (at level 61, right associativity).

Definition query (q : Query) : M unit :=
  fun w => (Return tt, {| db := db w; queries := queries w ++ [q] |}).

Definition read_db : M DB := fun w => (Return (db w), w).

Definition write_db (d : DB) : M unit :=
  fun w => (Return tt, {| db := d; queries := queries w |}).

(** [transaction.commit_on_success]: an exception rolls the tables back. *)
Definition commit_on_success {A} (m : M A) : M A :=
  fun w =>
    match m w with
    | (Return a, w') => (Return a, w')
    | (Raise e, w') => (Raise e, {| db := db w; queries := queries w' |})
    end.

(** ** The object-relational mapping, as far as the views use it *)

(** [get_object_or_404(User, pk=pk)] *)
Definition get_object_or_404_User (pk : Z) : M User :=
  query (Select ModelUser) ;;
  d <- read_db ;;
  match find (fun u => user_pk u =? pk) (users d) with
  | Some u => ret u
  | None => raise Http404
  end.

(** [get_object_or_404(Project, pk=pk)] *)
Definition get_object_or_404_Project (pk : Z) : M Project :=
  query (Select ModelProject) ;;
  d <- read_db ;;
  match find (fun p => project_pk p =? pk) (projects d) with
  | Some p => ret p
  | None => raise Http404
  end.

(** The rows of the relationship table for one (user, project) pair. *)
Definition relationships_of (user_id project_id : Z)
    (table : list ProjectRelationship) : list ProjectRelationship :=
  filter (fun r => (relationship_user r =? user_id)
                   && (relationship_project r =? project_id)) table.

(** [get_object_or_404(ProjectRelationship, user__id=.., project__id=..)];
    a lookup against [None] selects no row. *)
Definition get_object_or_404_ProjectRelationship
    (user_id project_id : option Z) : M ProjectRelationship :=
  query (Select ModelProjectRelationship) ;;
  d <- read_db ;;
  match user_id, project_id with
  | Some u, Some p =>
      match relationships_of u p (relationships d) with
      | [] => raise Http404
      | [r] => ret r
      | _ :: _ :: _ => raise MultipleObjectsReturned
      end
  | _, _ => raise Http404
  end.

(** The key the table's sequence gives to the next row. *)
Definition next_pk (table : list ProjectRelationship) : Z :=
  1 + fold_right Z.max 0 (map relationship_pk table).

(** [ProjectRelationship.objects.get_or_create(user=.., project=..)] *)
Definition get_or_create (u : User) (p : Project) : M (ProjectRelationship * bool) :=
  query (Select ModelProjectRelationship) ;;
  d <- read_db ;;
  match relationships_of (user_pk u) (project_pk p) (relationships d) with
  | [r] => ret (r, false)
  | [] =>
      let r := {| relationship_pk := next_pk (relationships d);
                  relationship_user := user_pk u;
                  relationship_project := project_pk p |} in
      query (Insert ModelProjectRelationship) ;;
      write_db {| users := users d;
                  projects := projects d;
                  relationships := relationships d ++ [r];
                  entries := entries d |} ;;
      ret (r, true)
  | _ :: _ :: _ => raise MultipleObjectsReturned
  end.

(** [order_by]: a stable sort; [le a b] says that [a] may come before [b]. *)
Section OrderBy.
Context {A : Type} (le : A -> A -> bool).

Fixpoint insert_row (x : A) (rows : list A) : list A :=
  match rows with
  | [] => [x]
  | y :: rest => if le x y then x :: rows else y :: insert_row x rest
  end.

Definition order_by (rows : list A) : list A :=
  fold_right insert_row [] rows.
End OrderBy.

(** [Sum] over a column. *)
Definition Sum (column : list Z) : Z := fold_right Z.add 0 column.

(** [aggregate(hours=Sum('hours'))['hours']]: SQL's SUM over no row is NULL. *)
Definition aggregate_Sum_hours (qs : list Entry) : option Z :=
  match qs with
  | [] => None
  | _ :: _ => Some (Sum (map entry_hours qs))
  end.

(** [values(key).annotate(sum=Sum('hours'))]: one row per distinct key, with
    the sum of the hours of the entries that carry it. *)
Section Annotate.
Context {K : Type} (key_eqb : K -> K -> bool).

Fixpoint add_to_group (k : K) (h : Z) (groups : list (K * Z)) : list (K * Z) :=
  match groups with
  | [] => [(k, h)]
  | (k', s) :: rest =>
      if key_eqb k' k then (k', s + h) :: rest
      else (k', s) :: add_to_group k h rest
  end.

Definition values_annotate_Sum_hours (key : Entry -> K) (qs : list Entry)
  : list (K * Z) :=
  fold_left (fun groups e => add_to_group (key e) (entry_hours e) groups) qs [].
End Annotate.

(** [order_by('-sum')] *)
Definition by_sum_descending {K : Type} (a b : K * Z) : bool := snd b <=? snd a.

(** Ascending [end_time]; a NULL sorts after every value. *)
Definition by_end_time (a b : Entry) : bool :=
  match entry_end_time a, entry_end_time b with
  | Some x, Some y => x <=? y
  | Some _, None => true
  | None, Some _ => false
  | None, None => true
  end.

(** [end_time__range=(start, end)]: SQL's BETWEEN, both ends included. *)
Definition end_time__range (start end_ : datetime) (e : Entry) : bool :=
  match entry_end_time e with
  | Some t => (start <=? t) && (t <=? end_)
  | None => false
  end.

(** ** Rows of [values()] query sets, and CSV cells *)

Record EntryValues := {
  start_time : datetime;
  end_time : datetime;
  user__first_name : string;
  user__last_name : string;
  activity__name : string;
  location__name : string;
  seconds_paused : Z;
  hours : Z
}.

Inductive Cell :=
| CellStr (s : string)
| CellDecimal (hundredths : Z)
| CellNone.

Definition cell_of_total (total : option Z) : Cell :=
  match total with
  | Some t => CellDecimal t
  | None => CellNone
  end.

(** ** Code of the application outside [crm/views.py] *)

Class Collaborators := {
  (** [timepiece.utils.add_timezone] *)
  AwareDatetime : Type;
  add_timezone : datetime -> AwareDatetime;
  (** [utils.get_month_start(d).date()] *)
  utils_get_month_start : AwareDatetime -> date;
  (** [datetime.datetime.today()] *)
  today : datetime;
  (** [relativedelta(months=n)] added to a datetime, to a date *)
  relativedelta_months : Z -> datetime -> datetime;
  relativedelta_months_date : Z -> date -> date;
  (** [TimesheetSelectMonthForm(data=..)]: [get_month_start()] and
      [get_extended_month_range()] *)
  get_month_start : option QueryDict -> datetime;
  get_extended_month_range : option QueryDict -> datetime * datetime;
  (** [EntryQuerySet.summaries()]: one summary per entry *)
  Summary : Type;
  summary : Entry -> Summary;
  (** [YearMonthForm(data)]: [is_valid()] and [save()] *)
  YearMonthForm_is_valid : QueryDict -> bool;
  YearMonthForm_save : QueryDict -> date * date;
  (** [EntryQuerySet.timespan(from_date, span='month')] and
      [EntryQuerySet.date_trunc('month', extra_values)] *)
  timespan : date -> list Entry -> list Entry;
  date_trunc : list Entry -> list EntryValues;
  (** [strftime('%x')], [strftime('%X')] and the [seconds_to_hours] tag *)
  strftime_x : datetime -> string;
  strftime_X : datetime -> string;
  seconds_to_hours : Z -> Cell;
  (** [SelectUserForm(POST).get_user()], [SelectProjectForm(POST).get_project()] *)
  SelectUserForm_get_user : QueryDict -> list User -> option User;
  SelectProjectForm_get_project : QueryDict -> list Project -> option Project;
  (** [RedirectMessageMixin.get_success_url()] *)
  get_success_url : Request -> string;
  (** Django's [User.has_perm]: how many times it reads the permission
      tables for a stored user (twice for an ordinary active user, the
      user's own and the groups' permissions; not at all for a superuser
      or an inactive user) *)
  permission_reads : User -> nat
}.

(** ** User timesheets *)

(** What [UserTimesheetMixin.dispatch] stores on the view. *)
Record TimesheetView := {
  timesheet_user : User;
  month_form : option QueryDict;
  this_month : datetime
}.

(** The loop of [get_weeks]: [cursor] runs from the start of the range in
    steps of seven days while it is before [end_]. The time zone helper is an
    argument of the loop. *)
Equations? weeks_loop {T : Type} (tz : datetime -> T) (end_ cursor : datetime)
    (weeks : list (T * T)) : list (T * T)
    by wf (Z.to_nat ((end_ - cursor + relativedelta_days 7 - 1)
                     / relativedelta_days 7)) lt :=
  weeks_loop tz end_ cursor weeks with Z_lt_dec cursor end_ := {
    | left _ =>
        let next_week := cursor + relativedelta_days 7 in
        weeks_loop tz end_ next_week
          (weeks ++ [(tz cursor, tz (next_week - relativedelta_microseconds 1))]);
    | right _ => weeks }.
Proof.
  subst next_week.
  change 604800000000 with (relativedelta_days 7).
  set (w := relativedelta_days 7).
  assert (Hw : 0 < w) by reflexivity.
  replace (end_ - cursor + w - 1) with ((end_ - (cursor + w) + w - 1) + 1 * w) by lia.
  rewrite Z.div_add by lia.
  assert (0 <= (end_ - (cursor + w) + w - 1) / w) by (apply Z.div_pos; lia).
  lia.
Qed.

Section Views.
Context {env : Collaborators}.

(** The dictionary [ViewUserTimesheetAjax.get_context_data] returns. *)
Record TimesheetContext := {
  kwargs_entries : list Summary;
  kwargs_weeks : list (AwareDatetime * AwareDatetime);
  kwargs_last_month : datetime;
  kwargs_next_month : datetime;
  kwargs_this_month : datetime
}.

Inductive HttpResponse :=
| HttpResponseRedirect (url : string)
| HttpResponseJSON (data : TimesheetContext).

(** The queries [request.user.has_perm] sends: none for the anonymous
    user, the reads of the permission tables for a stored one. *)
Definition has_perm_queries (r : Requester) : list Query :=
  match r with
  | AnonymousUser => []
  | Authenticated u => repeat (Select ModelPermission) (permission_reads u)
  end.

(** [request.user.has_perm(perm)], as the view runs it. *)
Definition user_has_perm (r : Requester) (perm : string) : M bool :=
  fun w =>
    (Return (has_perm r perm),
     {| db := db w; queries := queries w ++ has_perm_queries r |}).

(** [UserTimesheetMixin.dispatch]; [super_dispatch] is the dispatch of the
    view class the mixin is combined with. *)
Definition UserTimesheetMixin_dispatch
    (super_dispatch : TimesheetView -> Request -> M HttpResponse)
    (request : Request) (user_id : Z) : M HttpResponse :=
  timesheet_user <- get_object_or_404_User user_id ;;
  (if negb (requester_eq (user request) timesheet_user) then
     permitted <- user_has_perm (user request) "entries.view_entry_summary" ;;
     if negb permitted then raise PermissionDenied else ret tt
   else ret tt) ;;
  let month_form := or_None (GET request) in
  let this_month := get_month_start month_form in
  super_dispatch {| timesheet_user := timesheet_user;
                    month_form := month_form;
                    this_month := this_month |} request.

(** [ViewUserTimesheetAjax.get_month_entries] *)
Definition get_month_entries (self : TimesheetView) (d : DB) : list Summary :=
  let '(start, end_) := get_extended_month_range (month_form self) in
  let entries :=
    filter (fun e => user_pk (entry_user e) =? user_pk (timesheet_user self))
           (entries d) in
  let entries := filter (end_time__range start end_) entries in
  let entries := order_by by_end_time entries in
  map summary entries.

(** [ViewUserTimesheetAjax.get_weeks] *)
Definition get_weeks (self : TimesheetView)
  : list (AwareDatetime * AwareDatetime) :=
  let '(start, end_) := get_extended_month_range (month_form self) in
  weeks_loop add_timezone end_ start [].

(** [ViewUserTimesheetAjax.get_context_data], on top of the mixin's. *)
Definition ViewUserTimesheetAjax_get_context_data
    (self : TimesheetView) (d : DB) : TimesheetContext :=
  {| kwargs_entries := get_month_entries self d;
     kwargs_weeks := get_weeks self;
     kwargs_last_month := relativedelta_months (-1) (this_month self);
     kwargs_next_month := relativedelta_months 1 (this_month self);
     kwargs_this_month := this_month self |}.

(** [ViewUserTimesheetAjax.get]: the entries are read when the context is
    serialised. *)
Definition ViewUserTimesheetAjax_get
    (self : TimesheetView) (request : Request) : M HttpResponse :=
  query (Select ModelEntry) ;;
  d <- read_db ;;
  ret (HttpResponseJSON (ViewUserTimesheetAjax_get_context_data self d)).

Definition ViewUserTimesheetAjax_dispatch : Request -> Z -> M HttpResponse :=
  UserTimesheetMixin_dispatch ViewUserTimesheetAjax_get.

(** ** Project timesheets *)

Record ProjectTimesheetContext := {
  context_project : Project;
  context_year_month_form : option QueryDict;
  context_from_date : date;
  context_to_date : date;
  context_entries : list EntryValues;
  context_total : option Z;
  context_user_entries : list ((string * string) * Z);
  context_activity_entries : list (string * Z)
}.

Definition name_eqb (a b : string * string) : bool :=
  String.eqb (fst a) (fst b) && String.eqb (snd a) (snd b).

(** The query set [entries_qs] of [get_context_data]. *)
Definition project_month_entries (project : Project) (from_date : date)
    (d : DB) : list Entry :=
  filter (fun e => entry_project e =? project_pk project)
         (timespan from_date (entries d)).

(** The dates [get_context_data] settles on. *)
Definition report_range (request : Request) : date * date :=
  if truthy (GET request) && YearMonthForm_is_valid (GET request) then
    YearMonthForm_save (GET request)
  else
    let date := add_timezone today in
    let from_date := utils_get_month_start date in
    (from_date, relativedelta_months_date 1 from_date).

(** [ProjectTimesheet.get_context_data] *)
Definition ProjectTimesheet_get_context_data
    (project : Project) (request : Request) (d : DB)
  : ProjectTimesheetContext :=
  let year_month_form := or_None (GET request) in
  let '(from_date, to_date) := report_range request in
  let entries_qs := project_month_entries project from_date d in
  let month_entries := date_trunc entries_qs in
  let total := aggregate_Sum_hours entries_qs in
  let user_entries :=
    order_by by_sum_descending
      (values_annotate_Sum_hours name_eqb
         (fun e => (first_name (entry_user e), last_name (entry_user e)))
         entries_qs) in
  let activity_entries :=
    order_by by_sum_descending
      (values_annotate_Sum_hours String.eqb entry_activity_name entries_qs) in
  {| context_project := project;
     context_year_month_form := year_month_form;
     context_from_date := from_date;
     context_to_date := to_date - 1;
     context_entries := month_entries;
     context_total := total;
     context_user_entries := user_entries;
     context_activity_entries := activity_entries |}.

(** [ProjectTimesheetCSV.convert_context_to_csv] *)
Definition csv_header : list Cell :=
  [CellStr "Date"; CellStr "User"; CellStr "Activity"; CellStr "Location";
   CellStr "Time In"; CellStr "Time Out"; CellStr "Breaks"; CellStr "Hours"].

Definition csv_data (entry : EntryValues) : list Cell :=
  [CellStr (strftime_x (start_time entry));
   CellStr (user__first_name entry ++ " " ++ user__last_name entry)%string;
   CellStr (activity__name entry);
   CellStr (location__name entry);
   CellStr (strftime_X (start_time entry));
   CellStr (strftime_X (end_time entry));
   seconds_to_hours (seconds_paused entry);
   CellDecimal (hours entry)].

Definition convert_context_to_csv (context : ProjectTimesheetContext)
  : list (list Cell) :=
  let rows : list (list Cell) := [] in
  let rows := (rows ++ [csv_header])%list in
  let rows :=
    fold_left (fun rows entry => (rows ++ [csv_data entry])%list)
              (context_entries context) rows in
  let total := context_total context in
  (rows ++ [[CellStr ""; CellStr ""; CellStr ""; CellStr ""; CellStr "";
             CellStr ""; CellStr "Total:"; cell_of_total total]])%list.

(** ** User-project relationships *)

(** [CreateRelationship.get_user], [get_project] and [post] *)
Definition get_user (request : Request) : M (option User) :=
  match REQUEST_get "user_id" (REQUEST request) with
  | Some user_id =>
      u <- get_object_or_404_User user_id ;;
      ret (Some u)
  | None =>
      d <- read_db ;;
      ret (SelectUserForm_get_user (POST request) (users d))
  end.

Definition get_project (request : Request) : M (option Project) :=
  match REQUEST_get "project_id" (REQUEST request) with
  | Some project_id =>
      p <- get_object_or_404_Project project_id ;;
      ret (Some p)
  | None =>
      d <- read_db ;;
      ret (SelectProjectForm_get_project (POST request) (projects d))
  end.

Definition post (request : Request) : M HttpResponse :=
  user <- get_user request ;;
  project <- get_project request ;;
  match user, project with
  | Some u, Some p => get_or_create u p ;; ret tt
  | _, _ => ret tt
  end ;;
  ret (HttpResponseRedirect (get_success_url request)).

(** The view object of the edit and delete views: its request and the
    arguments captured from the URL. *)
Record RelationshipView := {
  view_request : Request;
  view_kwargs : list (string * Z)
}.

(** [RelationshipObjectMixin.get_object] *)
Definition get_object (self : RelationshipView)
    (queryset : option (list ProjectRelationship)) : M ProjectRelationship :=
  let user_id := REQUEST_get "user_id" (REQUEST (view_request self)) in
  let project_id := REQUEST_get "project_id" (REQUEST (view_request self)) in
  get_object_or_404_ProjectRelationship user_id project_id.
End Views.

(** A concrete set of collaborators, to run the views on examples: UTC as
    the time zone, a month form whose extended range is the four weeks from
    its start, a year/month form that accepts exactly the query [year=2014]. *)
Definition example_env : Collaborators :=
  {| AwareDatetime := datetime * string;
     add_timezone := fun d => (d, "UTC");
     utils_get_month_start := fun d => fst d / microseconds_per_day;
     today := 0;
     relativedelta_months := fun n d => d + n * 30 * microseconds_per_day;
     relativedelta_months_date := fun n d => d + n * 30;
     get_month_start := fun _ => 0;
     get_extended_month_range := fun _ => (0, relativedelta_days 28);
     Summary := Z;
     summary := entry_id;
     YearMonthForm_is_valid := fun q =>
       match q with
       | [(k, v)] => String.eqb k "year" && String.eqb v "2014"
       | _ => false
       end;
     YearMonthForm_save := fun _ => (100, 130);
     timespan := fun _ es => es;
     date_trunc := map (fun e =>
       {| start_time := entry_start_time e;
          end_time := match entry_end_time e with Some t => t | None => 0 end;
          user__first_name := first_name (entry_user e);
          user__last_name := last_name (entry_user e);
          activity__name := entry_activity_name e;
          location__name := entry_location_name e;
          seconds_paused := entry_seconds_paused e;
          hours := entry_hours e |});
     strftime_x := fun _ => "01/01/14";
     strftime_X := fun _ => "00:00:00";
     seconds_to_hours := fun s => CellDecimal (s / 36);
     SelectUserForm_get_user := fun _ _ => None;
     SelectProjectForm_get_project := fun _ _ => None;
     get_success_url := fun _ => "/";
     permission_reads := fun _ => 2%nat |}.

(** * The vocabulary of the properties *)

(** Seven days, in microseconds. *)
Definition week : Z := relativedelta_days 7.

(** The number of turns of the loop of [get_weeks]. *)
Definition weeks_count (start end_ : datetime) : nat :=
  Z.to_nat ((end_ - start + week - 1) / week).

(** The [k]-th bucket of a range that starts at [start]. *)
Definition bucket (start : datetime) (k : nat) : datetime * datetime :=
  (start + Z.of_nat k * week, start + Z.of_nat k * week + week - 1).

(** The instant [t] lies in the bucket [b], its two ends included. *)
Definition within (b : datetime * datetime) (t : datetime) : Prop :=
  fst b <= t <= snd b.

(** A bucket with the time zone helper applied to its two ends. *)
Definition localize {T : Type} (tz : datetime -> T) (b : datetime * datetime)
  : T * T :=
  (tz (fst b), tz (snd b)).

(** The world once one more query has been logged. *)
Definition logged (q : Query) (w : World) : World :=
  {| db := db w; queries := queries w ++ [q] |}.


(** The same request with an empty query string. *)
Definition without_parameters (request : Request) : Request :=
  {| user := user request;
     GET := [];
     POST := POST request;
     REQUEST := REQUEST request |}.

(** The store keeps at most one relationship per (user, project) pair. *)
Definition unique_together (d : DB) : Prop :=
  forall user_id project_id,
    (List.length (relationships_of user_id project_id (relationships d)) <= 1)%nat.

(** A query that only reads. *)
Definition is_select (q : Query) : Prop := exists m, q = Select m.

(** The table after [get_or_create] has added the pair. *)
Definition created (u : User) (p : Project) (d : DB) : DB :=
  {| users := users d;
     projects := projects d;
     relationships :=
       relationships d
       ++ [{| relationship_pk := next_pk (relationships d);
              relationship_user := user_pk u;
              relationship_project := project_pk p |}];
     entries := entries d |}.

Section Vocabulary.
Context {env : Collaborators}.

(** The world once the target user has been looked up and the permission
    of the requester checked. *)
Definition checked (request : Request) (w : World) : World :=
  {| db := db w;
     queries := queries w ++ Select ModelUser :: has_perm_queries (user request) |}.

(** The view object [dispatch] builds for a target user. *)
Definition view_of (request : Request) (target : User) : TimesheetView :=
  {| timesheet_user := target;
     month_form := or_None (GET request);
     this_month := get_month_start (or_None (GET request)) |}.

(** The rows the month's query selects: the timesheet user's entries whose
    end time is in the extended range. *)
Definition selected (self : TimesheetView) (e : Entry) : Prop :=
  user_pk (entry_user e) = user_pk (timesheet_user self)
  /\ exists t, entry_end_time e = Some t
       /\ fst (get_extended_month_range (month_form self)) <= t
          <= snd (get_extended_month_range (month_form self)).

(** [HttpResponseRedirect(self.get_success_url())], returned. *)
Definition redirect_to_success (request : Request) : Outcome HttpResponse :=
  Return (HttpResponseRedirect (get_success_url request)).

(** What [get_user] and [get_project] return, read off the tables. *)
Definition resolve_user (request : Request) (table : list User)
  : Outcome (option User) :=
  match REQUEST_get "user_id" (REQUEST request) with
  | Some user_id =>
      match find (fun u => user_pk u =? user_id) table with
      | Some u => Return (Some u)
      | None => Raise Http404
      end
  | None => Return (SelectUserForm_get_user (POST request) table)
  end.

Definition resolve_project (request : Request) (table : list Project)
  : Outcome (option Project) :=
  match REQUEST_get "project_id" (REQUEST request) with
  | Some project_id =>
      match find (fun p => project_pk p =? project_id) table with
      | Some p => Return (Some p)
      | None => Raise Http404
      end
  | None => Return (SelectProjectForm_get_project (POST request) table)
  end.

(** The request names no user: no id is given and the selection form
    yields none. Likewise for the project. *)
Definition absent_user (request : Request) (d : DB) : Prop :=
  REQUEST_get "user_id" (REQUEST request) = None
  /\ SelectUserForm_get_user (POST request) (users d) = None.

Definition absent_project (request : Request) (d : DB) : Prop :=
  REQUEST_get "project_id" (REQUEST request) = None
  /\ SelectProjectForm_get_project (POST request) (projects d) = None.

(** An id is given that names no stored user; no stored project. *)
Definition names_no_user (request : Request) (d : DB) : bool :=
  match REQUEST_get "user_id" (REQUEST request) with
  | Some user_id =>
      match find (fun u => user_pk u =? user_id) (users d) with
      | Some _ => false
      | None => true
      end
  | None => false
  end.

Definition names_no_project (request : Request) (d : DB) : bool :=
  match REQUEST_get "project_id" (REQUEST request) with
  | Some project_id =>
      match find (fun p => project_pk p =? project_id) (projects d) with
      | Some _ => false
      | None => true
      end
  | None => false
  end.

(** [n] posts of the same request, one after the other. *)
Fixpoint post_times (n : nat) (request : Request) (w : World) : World :=
  match n with
  | O => w
  | S n' => post_times n' request (snd (post request w))
  end.

End Vocabulary.

(** * A small store, to run the views on *)

Module Fixtures.

Definition alice : User :=
  {| user_pk := 1; first_name := "Alice"; last_name := "Ames";
     user_permissions := [] |}.
Definition bob : User :=
  {| user_pk := 2; first_name := "Bob"; last_name := "Burke";
     user_permissions := [] |}.
Definition carol : User :=
  {| user_pk := 3; first_name := "Carol"; last_name := "Cole";
     user_permissions := ["entries.view_entry_summary"] |}.

Definition website : Project := {| project_pk := 10; project_name := "Website" |}.

Definition day : Z := microseconds_per_day.

Definition entry (id : Z) (who : User) (activity : string)
    (finished : option datetime) (spent : Z) : Entry :=
  {| entry_id := id; entry_user := who; entry_project := 10;
     entry_activity_name := activity; entry_location_name := "Office";
     entry_start_time := 0; entry_end_time := finished;
     entry_seconds_paused := 0; entry_hours := spent |}.

Definition store : DB :=
  {| users := [alice; bob; carol];
     projects := [website];
     relationships := [];
     entries := [entry 1 alice "Design" (Some (3 * day)) 250;
                 entry 2 bob "Design" (Some (2 * day)) 100;
                 entry 3 alice "Review" (Some (1 * day)) 125;
                 entry 4 alice "Review" None 0;
                 entry 5 alice "Design" (Some (40 * day)) 300] |}.

Definition empty_store : DB :=
  {| users := [alice; bob; carol]; projects := [website];
     relationships := []; entries := [] |}.

Definition world : World := {| db := store; queries := [] |}.

Definition request_of (who : Requester) (query_string : QueryDict)
    (ids : list (string * Z)) : Request :=
  {| user := who; GET := query_string; POST := []; REQUEST := ids |}.

Definition alice_asks : Request := request_of (Authenticated alice) [] [].

Definition alice_view : TimesheetView :=
  view_of (env := example_env) alice_asks alice.

Definition bad_selection : Request :=
  request_of (Authenticated carol) [("year", "next")] [].

Definition add_alice_to_website : Request :=
  request_of (Authenticated carol) [] [("user_id", 1); ("project_id", 10)].

Definition alice_on_website : ProjectRelationship :=
  {| relationship_pk := 7; relationship_user := 1; relationship_project := 10 |}.

Definition world_with_relationship : World :=
  {| db := {| users := [alice; bob; carol]; projects := [website];
              relationships := [alice_on_website]; entries := [] |};
     queries := [] |}.

Definition edit_alice_on_website : RelationshipView :=
  {| view_request := add_alice_to_website; view_kwargs := [("pk", 99)] |}.

Definition edit_bob_on_website : RelationshipView :=
  {| view_request :=
       request_of (Authenticated carol) [] [("user_id", 2); ("project_id", 10)];
     view_kwargs := [("pk", 7)] |}.

End Fixtures.

(** * Further views *)

(** ** The CSV switch of the project timesheet *)

(** [key in data] and [data.pop(key)] on a query dictionary: a key goes
    with all its values. *)
Definition QueryDict_contains (key : string) (data : QueryDict) : bool :=
  existsb (fun kv => String.eqb (fst kv) key) data.

Definition QueryDict_pop (key : string) (data : QueryDict) : QueryDict :=
  filter (fun kv => negb (String.eqb (fst kv) key)) data.

(** Django's [reverse('view_project_timesheet_csv', args=(pk,))] and
    [urllib.urlencode]. *)
Class UrlHelpers := {
  reverse_view_project_timesheet_csv : Z -> string;
  urlencode : QueryDict -> string
}.

Section ProjectTimesheetGet.
Context {env : Collaborators} {urls : UrlHelpers}.

Inductive ProjectTimesheetResponse :=
| redirect (url : string)
| render_to_response (context : ProjectTimesheetContext).

(** [ProjectTimesheet.get]. The call of [super] is [DetailView.get]: it
    fetches the object, builds the context and renders it. *)
Definition ProjectTimesheet_get (request : Request) (project_id : Z)
  : M ProjectTimesheetResponse :=
  if QueryDict_contains "csv" (GET request) then
    let request_get := QueryDict_pop "csv" (GET request) in
    object <- get_object_or_404_Project project_id ;;
    let return_url := reverse_view_project_timesheet_csv (project_pk object) in
    let return_url := (return_url ++ "?" ++ urlencode request_get)%string in
    ret (redirect return_url)
  else
    object <- get_object_or_404_Project project_id ;;
    query (Select ModelEntry) ;;
    d <- read_db ;;
    ret (render_to_response (ProjectTimesheet_get_context_data object request d)).
End ProjectTimesheetGet.

(** ** More vocabulary *)

(** The request with another query string. *)
Definition with_query (data : QueryDict) (request : Request) : Request :=
  {| user := user request;
     GET := data;
     POST := POST request;
     REQUEST := REQUEST request |}.

(** The key the per-user sums are grouped by. *)
Definition user_name (e : Entry) : string * string :=
  (first_name (entry_user e), last_name (entry_user e)).

(** The hours of the entries of [qs] whose key is [k]. *)
Definition hours_of {K : Type} (key_eqb : K -> K -> bool) (key : Entry -> K)
    (k : K) (qs : list Entry) : Z :=
  Sum (map entry_hours (filter (fun e => key_eqb (key e) k) qs)).

(** Larger sums first. *)
Definition sum_descending {K : Type} (a b : K * Z) : Prop := snd b <= snd a.

(** The row [get_or_create] adds for a user and a project. *)
Definition new_relationship (u : User) (p : Project)
    (table : list ProjectRelationship) : ProjectRelationship :=
  {| relationship_pk := next_pk table;
     relationship_user := user_pk u;
     relationship_project := project_pk p |}.

Module MoreFixtures.
Import Fixtures.

Definition example_urls : UrlHelpers :=
  {| reverse_view_project_timesheet_csv := fun _ => "/project/csv/";
     urlencode := fun data => String.concat "&" (map fst data) |}.

Definition dana : User :=
  {| user_pk := 4; first_name := "Dana"; last_name := "Drew";
     user_permissions := ["entries.view_entry_summary";
                          "crm.add_projectrelationship"] |}.

Definition csv_request : Request :=
  request_of (Authenticated carol) [("csv", "1"); ("year", "2014")] [].

Definition anonymous_asks : Request := request_of AnonymousUser [] [].

Definition add_nobody_to_website : Request :=
  request_of (Authenticated carol) [] [("project_id", 10)].

Definition carol_asks : Request := request_of (Authenticated carol) [] [].

(** Four weeks, and an entry that ends at the very end of the range. *)
Definition store_with_boundary_entry : DB :=
  {| users := [alice]; projects := [website]; relationships := [];
     entries := [entry 1 alice "Design" (Some (28 * day)) 100;
                 entry 2 alice "Design" (Some (28 * day - 1)) 100] |}.

Definition boundary_world : World :=
  {| db := store_with_boundary_entry; queries := [] |}.

Definition edit_without_parameters : RelationshipView :=
  {| view_request := request_of (Authenticated carol) [] [("user_id", 1)];
     view_kwargs := [("pk", 7)] |}.

End MoreFixtures.

(** * Properties *)

(** ** The week buckets of the extended month range *)

Lemma week_pos : 0 < week.
Proof. reflexivity. Qed.

Lemma weeks_loop_step {T} (tz : datetime -> T) end_ cursor weeks :
  weeks_loop tz end_ cursor weeks =
  if cursor <? end_ then
    weeks_loop tz end_ (cursor + week)
      (weeks ++ [(tz cursor, tz (cursor + week - 1))])
  else weeks.
Proof.
  rewrite weeks_loop_equation_1.
  destruct (Z_lt_dec cursor end_) as [Hlt | Hge]; simpl;
    destruct (Z.ltb_spec cursor end_); try lia; reflexivity.
Qed.

Lemma weeks_count_done start end_ : end_ <= start -> weeks_count start end_ = 0%nat.
Proof.
  intros H. unfold weeks_count.
  pose proof week_pos.
  assert ((end_ - start + week - 1) / week <= 0).
  { assert ((end_ - start + week - 1) / week < 1); [ | lia ].
    apply Z.div_lt_upper_bound; lia. }
  lia.
Qed.

Lemma weeks_count_step start end_ :
  start < end_ -> weeks_count start end_ = S (weeks_count (start + week) end_).
Proof.
  intros H. unfold weeks_count.
  pose proof week_pos.
  replace (end_ - start + week - 1)
    with ((end_ - (start + week) + week - 1) + 1 * week) by lia.
  rewrite Z.div_add by lia.
  assert (0 <= (end_ - (start + week) + week - 1) / week)
    by (apply Z.div_pos; lia).
  lia.
Qed.

Lemma bucket_shift start k : bucket (start + week) k = bucket start (S k).
Proof. unfold bucket. f_equal; lia. Qed.

(** The loop appends one bucket per turn: bucket [k] starts [k] weeks after
    the start of the range. *)
Lemma weeks_loop_buckets {T} (tz : datetime -> T) end_ :
  forall n cursor weeks,
    weeks_count cursor end_ = n ->
    weeks_loop tz end_ cursor weeks =
    (weeks ++ map (fun k => localize tz (bucket cursor k)) (seq 0 n))%list.
Proof.
  induction n as [| n IH]; intros cursor weeks Hn; rewrite weeks_loop_step.
  - destruct (Z.ltb_spec cursor end_) as [Hlt | Hge].
    + rewrite (weeks_count_step _ _ Hlt) in Hn. discriminate.
    + simpl. now rewrite app_nil_r.
  - destruct (Z.ltb_spec cursor end_) as [Hlt | Hge].
    + rewrite (weeks_count_step _ _ Hlt) in Hn. injection Hn as Hn.
      rewrite (IH _ _ Hn), <- app_assoc. f_equal.
      simpl. f_equal.
      * unfold localize, bucket. simpl. do 2 f_equal; lia.
      * rewrite <- seq_shift, map_map. apply map_ext. intros k.
        now rewrite bucket_shift.
    + rewrite (weeks_count_done _ _ Hge) in Hn. discriminate.
Qed.

Lemma weeks_loop_naive start end_ :
  weeks_loop (fun d => d) end_ start [] =
  map (bucket start) (seq 0 (weeks_count start end_)).
Proof.
  rewrite (weeks_loop_buckets _ _ _ _ _ eq_refl). simpl.
  apply map_ext. intros k. unfold localize. now destruct (bucket start k).
Qed.

Lemma nth_error_buckets start n k b :
  nth_error (map (bucket start) (seq 0 n)) k = Some b ->
  (k < n)%nat /\ b = bucket start k.
Proof.
  intros H.
  assert (Hk : (k < n)%nat).
  { assert (Hl : (k < length (map (bucket start) (seq 0 n)))%nat)
      by (apply nth_error_Some; congruence).
    now rewrite length_map, length_seq in Hl. }
  split; [ exact Hk | ].
  rewrite nth_error_map, nth_error_seq in H.
  destruct (Nat.ltb_spec k n); [ | lia ].
  simpl in H. now injection H as <-.
Qed.

(** An instant before [end_] falls in the bucket numbered by the whole weeks
    elapsed since [start]. *)
Lemma weeks_count_covers start end_ t :
  start <= t < end_ -> (Z.to_nat ((t - start) / week) < weeks_count start end_)%nat.
Proof.
  intros [Hs He]. unfold weeks_count. pose proof week_pos.
  assert (0 <= (t - start) / week) by (apply Z.div_pos; lia).
  assert ((t - start) / week < (end_ - start + week - 1) / week); [ | lia ].
  replace (end_ - start + week - 1) with ((end_ - start - 1) + 1 * week) by lia.
  rewrite Z.div_add by lia.
  assert ((t - start) / week <= (end_ - start - 1) / week)
    by (apply Z.div_le_mono; lia).
  lia.
Qed.

Lemma within_bucket start k t :
  within (bucket start k) t <-> 0 <= t - start /\ (t - start) / week = Z.of_nat k.
Proof.
  unfold within, bucket. simpl. pose proof week_pos. split.
  - intros [Hlo Hhi]. split; [ lia | ].
    symmetry. apply (Z.div_unique (t - start) week (Z.of_nat k)
                       (t - start - Z.of_nat k * week)); lia.
  - intros [Hpos Hk].
    pose proof (Z.div_mod (t - start) week ltac:(lia)) as Hdm.
    pose proof (Z.mod_pos_bound (t - start) week ltac:(lia)) as Hb.
    rewrite Hk in Hdm. lia.
Qed.

Section UserTimesheetProperties.
Context {env : Collaborators}.

(** C1. The week buckets of [get_weeks] are the buckets the same loop
    yields on naive datetimes, each passed through [add_timezone]; and
    those buckets tile the extended range: every instant from the start of
    the range up to (not including) its end lies in a bucket, no instant
    lies in two buckets, each bucket starts one microsecond after the
    previous one ends, the first starts at the start of the range, and
    each spans seven days less a microsecond and starts before the end. *)
Theorem get_weeks_tile_extended_range (self : TimesheetView) :
  let start := fst (get_extended_month_range (month_form self)) in
  let end_ := snd (get_extended_month_range (month_form self)) in
  let naive := weeks_loop (fun d => d) end_ start [] in
  get_weeks self = map (localize add_timezone) naive
  /\ (forall t, start <= t < end_ ->
        exists k b, nth_error naive k = Some b /\ within b t)
  /\ (forall i j bi bj t,
        nth_error naive i = Some bi -> nth_error naive j = Some bj ->
        within bi t -> within bj t -> i = j)
  /\ (forall i b b',
        nth_error naive i = Some b -> nth_error naive (S i) = Some b' ->
        fst b' = snd b + relativedelta_microseconds 1)
  /\ (forall b, nth_error naive 0 = Some b -> fst b = start)
  /\ (forall b, In b naive ->
        snd b = fst b + relativedelta_days 7 - relativedelta_microseconds 1
        /\ fst b < end_).
Proof.
  unfold get_weeks.
  destruct (get_extended_month_range (month_form self)) as [start end_].
  cbn [fst snd]. cbv zeta. rewrite weeks_loop_naive.
  split; [ | split; [ | split; [ | split; [ | split ] ] ] ].
  - rewrite (weeks_loop_buckets _ _ _ _ _ eq_refl), map_map. reflexivity.
  - intros t Ht.
    exists (Z.to_nat ((t - start) / week)), (bucket start (Z.to_nat ((t - start) / week))).
    split.
    + rewrite nth_error_map, nth_error_seq.
      pose proof (weeks_count_covers start end_ t Ht) as Hk.
      destruct (Nat.ltb_spec (Z.to_nat ((t - start) / week)) (weeks_count start end_));
        [ reflexivity | lia ].
    + apply within_bucket. pose proof week_pos.
      assert (0 <= (t - start) / week) by (apply Z.div_pos; lia).
      lia.
  - intros i j bi bj t Hi Hj Hbi Hbj.
    apply nth_error_buckets in Hi as [_ ->].
    apply nth_error_buckets in Hj as [_ ->].
    apply within_bucket in Hbi as [_ Hbi].
    apply within_bucket in Hbj as [_ Hbj].
    lia.
  - intros i b b' Hi Hi'.
    apply nth_error_buckets in Hi as [_ ->].
    apply nth_error_buckets in Hi' as [_ ->].
    unfold bucket, relativedelta_microseconds. cbn [fst snd]. lia.
  - intros b Hb. apply nth_error_buckets in Hb as [_ ->].
    unfold bucket. cbn [fst snd]. lia.
  - intros b Hb. apply in_map_iff in Hb as [k [<- Hk]].
    apply in_seq in Hk. unfold bucket. cbn [fst snd].
    split; [ unfold week, relativedelta_microseconds; lia | ].
    unfold weeks_count in Hk. pose proof week_pos.
    assert (Hlt : Z.of_nat k < (end_ - start + week - 1) / week) by lia.
    assert (Z.of_nat k * week < end_ - start + week - 1 - week + 1); [ | lia ].
    pose proof (Z.mul_div_le (end_ - start + week - 1) week ltac:(lia)).
    nia.
Qed.

(** The end of the range itself: when the range is not empty, the instant
    [end_] lies in a bucket exactly when the length of the range is not a
    whole number of weeks. *)
Lemma get_weeks_end_instant (start end_ : datetime) :
  start < end_ ->
  ((exists k b, nth_error (weeks_loop (fun d => d) end_ start []) k = Some b
                /\ within b end_)
   <-> (end_ - start) mod week <> 0).
Proof.
  intros Hlt. rewrite weeks_loop_naive. pose proof week_pos. split.
  - intros [k [b [Hk Hb]]].
    apply nth_error_buckets in Hk as [Hk ->].
    apply within_bucket in Hb as [_ Hb].
    intros Hmod. unfold weeks_count in Hk.
    apply Z.mod_divide in Hmod; [ | lia ]. destruct Hmod as [q Hq].
    rewrite Hq in Hb. rewrite Z.div_mul in Hb by lia.
    replace (end_ - start + week - 1) with ((week - 1) + q * week) in Hk by lia.
    rewrite Z.div_add in Hk by lia.
    rewrite Z.div_small in Hk by lia. lia.
  - intros Hmod.
    exists (Z.to_nat ((end_ - start) / week)),
           (bucket start (Z.to_nat ((end_ - start) / week))).
    assert (0 <= (end_ - start) / week) by (apply Z.div_pos; lia).
    split.
    + rewrite nth_error_map, nth_error_seq.
      destruct (Nat.ltb_spec (Z.to_nat ((end_ - start) / week)) (weeks_count start end_)) as [ | Hge];
        [ reflexivity | exfalso ].
      unfold weeks_count in Hge.
      pose proof (Z.div_mod (end_ - start) week ltac:(lia)) as Hdm.
      pose proof (Z.mod_pos_bound (end_ - start) week ltac:(lia)) as Hb.
      assert ((end_ - start) / week + 1 <= (end_ - start + week - 1) / week); [ | lia ].
      apply Z.div_le_lower_bound; lia.
    + apply within_bucket. lia.
Qed.

(** *** [order_by] sorts and keeps the rows *)

Lemma insert_row_Permutation {A} (le : A -> A -> bool) x rows :
  Permutation (insert_row le x rows) (x :: rows).
Proof.
  induction rows as [| y rest IH]; simpl.
  - reflexivity.
  - destruct (le x y).
    + reflexivity.
    + rewrite IH. apply perm_swap.
Qed.

Lemma order_by_Permutation {A} (le : A -> A -> bool) rows :
  Permutation (order_by le rows) rows.
Proof.
  induction rows as [| x rest IH]; simpl.
  - reflexivity.
  - rewrite insert_row_Permutation. now constructor.
Qed.

Section Sorting.
Context {A : Type} (le : A -> A -> bool).
Hypothesis le_total : forall a b, le a b = false -> le b a = true.
Hypothesis le_trans :
  forall a b c, le a b = true -> le b c = true -> le a c = true.

Let precedes (a b : A) : Prop := le a b = true.

Lemma insert_row_sorted x rows :
  StronglySorted precedes rows ->
  StronglySorted precedes (insert_row le x rows).
Proof.
  induction 1 as [| y rest Hsorted IH Hall]; simpl.
  - repeat constructor.
  - destruct (le x y) eqn:Hxy.
    + constructor; [ now constructor | ].
      constructor; [ exact Hxy | ].
      eapply Forall_impl; [ | exact Hall ].
      intros z Hz. exact (le_trans _ _ _ Hxy Hz).
    + constructor; [ exact IH | ].
      eapply Permutation_Forall.
      * symmetry. apply insert_row_Permutation.
      * constructor; [ now apply le_total | exact Hall ].
Qed.

Lemma order_by_sorted rows : StronglySorted precedes (order_by le rows).
Proof.
  induction rows as [| x rest IH]; simpl.
  - constructor.
  - now apply insert_row_sorted.
Qed.
End Sorting.





(** *** The permission gate of the timesheet views *)

Lemma get_object_or_404_User_run pk w :
  get_object_or_404_User pk w =
  match find (fun u => user_pk u =? pk) (users (db w)) with
  | Some u => (Return u, logged (Select ModelUser) w)
  | None => (Raise Http404, logged (Select ModelUser) w)
  end.
Proof.
  unfold get_object_or_404_User, bind, query, read_db, ret, raise, logged.
  simpl. now destruct (find _ (users (db w))).
Qed.

Lemma get_object_or_404_Project_run pk w :
  get_object_or_404_Project pk w =
  match find (fun p => project_pk p =? pk) (projects (db w)) with
  | Some p => (Return p, logged (Select ModelProject) w)
  | None => (Raise Http404, logged (Select ModelProject) w)
  end.
Proof.
  unfold get_object_or_404_Project, bind, query, read_db, ret, raise, logged.
  simpl. now destruct (find _ (projects (db w))).
Qed.

Lemma UserTimesheetMixin_dispatch_run super_dispatch request user_id w :
  UserTimesheetMixin_dispatch super_dispatch request user_id w =
  match find (fun u => user_pk u =? user_id) (users (db w)) with
  | None => (Raise Http404, logged (Select ModelUser) w)
  | Some target =>
      if requester_eq (user request) target
      then super_dispatch (view_of request target) request
             (logged (Select ModelUser) w)
      else if has_perm (user request) "entries.view_entry_summary"
      then super_dispatch (view_of request target) request (checked request w)
      else (Raise PermissionDenied, checked request w)
  end.
Proof.
  unfold UserTimesheetMixin_dispatch, bind at 1.
  rewrite get_object_or_404_User_run.
  destruct (find _ (users (db w))) as [target |]; [ | reflexivity ].
  unfold bind, ret, raise, view_of, user_has_perm, checked, logged.
  destruct (requester_eq (user request) target); simpl; [ reflexivity | ].
  rewrite <- app_assoc. simpl.
  now destruct (has_perm (user request) "entries.view_entry_summary").
Qed.

(** C3. Let the timesheet of a stored user be requested. A requester who
    is not that user and lacks [entries.view_entry_summary] gets the
    forbidden failure, once the user has been looked up and the permission
    checked. A requester who is that user passes the gate with or without
    the permission: the request is handed to the view, and for the JSON
    view it is answered with the month's data. *)
Theorem dispatch_own_timesheet_or_permission
    (request : Request) (user_id : Z) (w : World) (target : User) :
  find (fun u => user_pk u =? user_id) (users (db w)) = Some target ->
  (requester_eq (user request) target = false ->
   has_perm (user request) "entries.view_entry_summary" = false ->
   forall super_dispatch,
     UserTimesheetMixin_dispatch super_dispatch request user_id w =
     (Raise PermissionDenied, checked request w))
  /\ (requester_eq (user request) target = true ->
      (forall super_dispatch,
         UserTimesheetMixin_dispatch super_dispatch request user_id w =
         super_dispatch (view_of request target) request
           (logged (Select ModelUser) w))
      /\ exists data w',
           ViewUserTimesheetAjax_dispatch request user_id w =
           (Return (HttpResponseJSON data), w')
           /\ db w' = db w).
Proof.
  intros Hfind. split.
  - intros Hne Hperm super_dispatch.
    now rewrite UserTimesheetMixin_dispatch_run, Hfind, Hne, Hperm.
  - intros Heq. split.
    + intros super_dispatch.
      now rewrite UserTimesheetMixin_dispatch_run, Hfind, Heq.
    + unfold ViewUserTimesheetAjax_dispatch.
      rewrite UserTimesheetMixin_dispatch_run, Hfind, Heq. simpl.
      unfold ViewUserTimesheetAjax_get, bind, query, read_db, ret. simpl.
      eexists. eexists. split; reflexivity.
Qed.

(** C4, as the code has it. The timesheet views do not reject before all
    data access: they look the target user up first. When there is no such
    user the request fails with the not-found failure after that one query,
    whatever permissions the requester has. When there is one, a requester
    who is not that user has the [entries.view_entry_summary] permission
    checked, which for a stored requester reads the permission tables, and
    lacking it gets the forbidden failure. On either rejected path the view
    is not run (the answer is the same for every view), the store is as it
    was, and the queries sent are the lookup of the user and the reads of
    the permission tables: none on the entries. *)
Theorem rejected_before_further_data_access
    (request : Request) (user_id : Z) (w : World) :
  (find (fun u => user_pk u =? user_id) (users (db w)) = None ->
   forall super_dispatch,
     UserTimesheetMixin_dispatch super_dispatch request user_id w =
     (Raise Http404, logged (Select ModelUser) w))
  /\ (forall target,
        find (fun u => user_pk u =? user_id) (users (db w)) = Some target ->
        requester_eq (user request) target = false ->
        has_perm (user request) "entries.view_entry_summary" = false ->
        forall super_dispatch,
          UserTimesheetMixin_dispatch super_dispatch request user_id w =
          (Raise PermissionDenied, checked request w))
  /\ db (checked request w) = db w
  /\ queries (checked request w)
     = queries w ++ Select ModelUser :: has_perm_queries (user request)
  /\ (forall q, In q (has_perm_queries (user request)) ->
                q = Select ModelPermission).
Proof.
  split; [ | split; [ | split; [ | split ] ] ].
  - intros Hfind super_dispatch.
    now rewrite UserTimesheetMixin_dispatch_run, Hfind.
  - intros target Hfind Hne Hperm super_dispatch.
    now rewrite UserTimesheetMixin_dispatch_run, Hfind, Hne, Hperm.
  - reflexivity.
  - reflexivity.
  - intros q Hq. unfold has_perm_queries in Hq.
    destruct (user request) as [| u]; [ destruct Hq | ].
    now apply repeat_spec in Hq.
Qed.
End UserTimesheetProperties.

(** ** Project timesheets *)

Lemma Sum_Permutation (a b : list Z) : Permutation a b -> Sum a = Sum b.
Proof.
  induction 1 as [| x a b _ IH | x y a | a b c _ IHab _ IHbc]; simpl; lia.
Qed.

Lemma add_to_group_Sum {K} (key_eqb : K -> K -> bool) k h groups :
  Sum (map snd (add_to_group key_eqb k h groups)) = Sum (map snd groups) + h.
Proof.
  induction groups as [| [k' s] rest IH]; simpl.
  - lia.
  - destruct (key_eqb k' k); simpl; lia.
Qed.

Lemma fold_add_to_group_Sum {K} (key_eqb : K -> K -> bool) (key : Entry -> K) qs :
  forall groups,
    Sum (map snd (fold_left
                    (fun groups e => add_to_group key_eqb (key e) (entry_hours e) groups)
                    qs groups))
    = Sum (map snd groups) + Sum (map entry_hours qs).
Proof.
  induction qs as [| e qs IH]; intros groups; simpl.
  - lia.
  - rewrite IH, add_to_group_Sum. lia.
Qed.

(** Grouping keeps the hours: the sums of the groups add up to the sum of
    the column, in whatever order the groups are listed. *)
Lemma annotate_order_by_Sum {K} (key_eqb : K -> K -> bool) (key : Entry -> K) qs :
  Sum (map snd (order_by by_sum_descending
                  (values_annotate_Sum_hours key_eqb key qs)))
  = Sum (map entry_hours qs).
Proof.
  rewrite (Sum_Permutation _ _
             (Permutation_map snd (order_by_Permutation by_sum_descending _))).
  unfold values_annotate_Sum_hours. now rewrite fold_add_to_group_Sum.
Qed.

Lemma fold_left_append {A B} (f : A -> B) l :
  forall rows, fold_left (fun rows x => rows ++ [f x]) l rows = rows ++ map f l.
Proof.
  induction l as [| x l IH]; intros rows; simpl.
  - now rewrite app_nil_r.
  - now rewrite IH, <- app_assoc.
Qed.

Section ProjectTimesheetProperties.
Context {env : Collaborators}.

(** C2, as the code has it. Let [entries_qs] be the entries of the project
    in the month of the report. If there is at least one, the total of the
    context is the sum of the per-user sums and also the sum of the
    per-activity sums. If there is none, the total is [None] (the sum of an
    empty column is NULL) and both lists of sums are empty. *)
Theorem project_timesheet_totals (project : Project) (request : Request) (d : DB) :
  let context := ProjectTimesheet_get_context_data project request d in
  match project_month_entries project (context_from_date context) d with
  | [] =>
      context_total context = None
      /\ context_user_entries context = []
      /\ context_activity_entries context = []
  | _ :: _ =>
      context_total context
        = Some (Sum (map snd (context_user_entries context)))
      /\ context_total context
        = Some (Sum (map snd (context_activity_entries context)))
  end.
Proof.
  unfold ProjectTimesheet_get_context_data.
  destruct (report_range request) as [from_date to_date]. cbn.
  destruct (project_month_entries project from_date d) as [| e qs] eqn:Hqs.
  - repeat split; reflexivity.
  - rewrite !annotate_order_by_Sum. split; reflexivity.
Qed.

(** C5. The CSV rows are the header row [Date, User, Activity, Location,
    Time In, Time Out, Breaks, Hours], then one row per entry of the
    context in their order, then one last row whose next-to-last cell is
    [Total:]; so there are two rows more than entries. *)
Theorem convert_context_to_csv_rows (context : ProjectTimesheetContext) :
  let total_row :=
    [CellStr ""; CellStr ""; CellStr ""; CellStr ""; CellStr ""; CellStr "";
     CellStr "Total:"; cell_of_total (context_total context)] in
  convert_context_to_csv context =
    [CellStr "Date"; CellStr "User"; CellStr "Activity"; CellStr "Location";
     CellStr "Time In"; CellStr "Time Out"; CellStr "Breaks"; CellStr "Hours"]
    :: map csv_data (context_entries context) ++ [total_row]
  /\ nth_error total_row (List.length total_row - 2) = Some (CellStr "Total:")
  /\ List.length (convert_context_to_csv context)
     = (List.length (context_entries context) + 2)%nat.
Proof.
  unfold convert_context_to_csv. rewrite fold_left_append. cbv zeta.
  split; [ reflexivity | ]. split; [ reflexivity | ].
  simpl. rewrite length_app, length_map. simpl. lia.
Qed.

(** C10, as the code has it. Let the query string of a project timesheet
    request be not empty and not validate as a year/month selection. The
    report is that of the current month: it starts at the start of the
    current month and ends the day before the start of the next, and the
    entries, the total and the two lists of sums are those of the project
    in that month, all as for the request without a query string. No
    failure is raised: for a stored project the view answers with the
    rendered context. But the fallback is not silent in the context: the
    form bound to the invalid query string is handed on in it, where the
    request without a query string hands on an unbound form. *)
Theorem invalid_selection_falls_back_to_current_month
    (project : Project) (request : Request) (d : DB) :
  truthy (GET request) = true ->
  YearMonthForm_is_valid (GET request) = false ->
  let context := ProjectTimesheet_get_context_data project request d in
  let fallback :=
    ProjectTimesheet_get_context_data project (without_parameters request) d in
  let month_start := utils_get_month_start (add_timezone today) in
  let entries_qs :=
    filter (fun e => entry_project e =? project_pk project)
           (timespan month_start (entries d)) in
  (context_from_date context = month_start
   /\ context_to_date context = relativedelta_months_date 1 month_start - 1
   /\ context_entries context = date_trunc entries_qs
   /\ context_total context = aggregate_Sum_hours entries_qs
   /\ context_user_entries context
      = order_by by_sum_descending
          (values_annotate_Sum_hours name_eqb user_name entries_qs)
   /\ context_activity_entries context
      = order_by by_sum_descending
          (values_annotate_Sum_hours String.eqb entry_activity_name entries_qs))
  /\ (context_from_date context = context_from_date fallback
      /\ context_to_date context = context_to_date fallback
      /\ context_entries context = context_entries fallback
      /\ context_total context = context_total fallback
      /\ context_user_entries context = context_user_entries fallback
      /\ context_activity_entries context = context_activity_entries fallback)
  /\ (context_year_month_form context = Some (GET request)
      /\ context_year_month_form fallback = None)
  /\ (forall (urls : UrlHelpers) (project_id : Z) (w : World),
        QueryDict_contains "csv" (GET request) = false ->
        find (fun p => project_pk p =? project_id) (projects (db w))
        = Some project ->
        fst (ProjectTimesheet_get request project_id w)
        = Return (render_to_response
                    (ProjectTimesheet_get_context_data project request (db w)))).
Proof.
  intros Hget Hinvalid. cbv zeta.
  split; [ | split; [ | split ] ].
  - unfold ProjectTimesheet_get_context_data, report_range, project_month_entries.
    rewrite Hget, Hinvalid. cbn. repeat split; reflexivity.
  - unfold ProjectTimesheet_get_context_data, report_range, without_parameters.
    rewrite Hget, Hinvalid. cbn. repeat split; reflexivity.
  - unfold ProjectTimesheet_get_context_data, without_parameters.
    destruct (report_range request) as [from_date to_date].
    destruct (report_range _) as [from_date' to_date']. cbn.
    split; [ | reflexivity ].
    unfold or_None. destruct (GET request); [ discriminate | reflexivity ].
  - intros urls project_id w Hcsv Hfind.
    unfold ProjectTimesheet_get. rewrite Hcsv.
    unfold bind at 1. rewrite get_object_or_404_Project_run, Hfind.
    reflexivity.
Qed.
End ProjectTimesheetProperties.

(** ** User-project relationships *)

Lemma relationships_of_app user_id project_id t1 t2 :
  relationships_of user_id project_id (t1 ++ t2)
  = relationships_of user_id project_id t1 ++ relationships_of user_id project_id t2.
Proof. apply filter_app. Qed.

Lemma relationships_of_In user_id project_id table r :
  In r (relationships_of user_id project_id table)
  <-> In r table /\ relationship_user r = user_id
      /\ relationship_project r = project_id.
Proof.
  unfold relationships_of. rewrite filter_In, andb_true_iff, !Z.eqb_eq. tauto.
Qed.

Lemma relationships_of_singleton user_id project_id table r :
  (List.length (relationships_of user_id project_id table) <= 1)%nat ->
  In r table -> relationship_user r = user_id ->
  relationship_project r = project_id ->
  relationships_of user_id project_id table = [r].
Proof.
  intros Hlen Hin Hu Hp.
  assert (Hr : In r (relationships_of user_id project_id table))
    by (apply relationships_of_In; tauto).
  destruct (relationships_of user_id project_id table) as [| r1 [| r2 rest]].
  - destruct Hr.
  - destruct Hr as [-> | []]. reflexivity.
  - simpl in Hlen. lia.
Qed.

Section RelationshipProperties.
Context {env : Collaborators}.

Lemma get_user_run request w :
  exists qs,
    get_user request w
    = (resolve_user request (users (db w)),
       {| db := db w; queries := queries w ++ qs |})
    /\ Forall is_select qs.
Proof.
  unfold get_user, resolve_user.
  destruct (REQUEST_get "user_id" (REQUEST request)) as [user_id |].
  - exists [Select ModelUser]. split; [ | repeat constructor; now eexists ].
    unfold bind at 1. rewrite get_object_or_404_User_run.
    now destruct (find _ (users (db w))).
  - exists []. split; [ | constructor ].
    unfold bind, read_db, ret. rewrite app_nil_r. now destruct w.
Qed.

Lemma get_project_run request w :
  exists qs,
    get_project request w
    = (resolve_project request (projects (db w)),
       {| db := db w; queries := queries w ++ qs |})
    /\ Forall is_select qs.
Proof.
  unfold get_project, resolve_project.
  destruct (REQUEST_get "project_id" (REQUEST request)) as [project_id |].
  - exists [Select ModelProject]. split; [ | repeat constructor; now eexists ].
    unfold bind at 1. rewrite get_object_or_404_Project_run.
    now destruct (find _ (projects (db w))).
  - exists []. split; [ | constructor ].
    unfold bind, read_db, ret. rewrite app_nil_r. now destruct w.
Qed.

Lemma get_user_fst request w :
  fst (get_user request w) = resolve_user request (users (db w)).
Proof. destruct (get_user_run request w) as [qs [-> _]]. reflexivity. Qed.

Lemma get_project_fst request w :
  fst (get_project request w) = resolve_project request (projects (db w)).
Proof. destruct (get_project_run request w) as [qs [-> _]]. reflexivity. Qed.

Lemma get_or_create_run u p w :
  get_or_create u p w =
  match relationships_of (user_pk u) (project_pk p) (relationships (db w)) with
  | [] =>
      (Return ({| relationship_pk := next_pk (relationships (db w));
                  relationship_user := user_pk u;
                  relationship_project := project_pk p |}, true),
       {| db := created u p (db w);
          queries := (queries w ++ [Select ModelProjectRelationship])
                     ++ [Insert ModelProjectRelationship] |})
  | [r] => (Return (r, false), logged (Select ModelProjectRelationship) w)
  | _ :: _ :: _ =>
      (Raise MultipleObjectsReturned, logged (Select ModelProjectRelationship) w)
  end.
Proof.
  unfold get_or_create, bind, query, read_db, write_db, ret, raise, logged, created.
  simpl.
  now destruct (relationships_of _ _ (relationships (db w))) as [| r [| r' rest]].
Qed.

(** [post] in terms of what the two lookups return. *)
Lemma post_run request w :
  exists qs,
    let w2 := {| db := db w; queries := queries w ++ qs |} in
    Forall is_select qs
    /\ post request w =
       match resolve_user request (users (db w)) with
       | Raise e => (Raise e, w2)
       | Return user_ =>
           match resolve_project request (projects (db w)) with
           | Raise e => (Raise e, w2)
           | Return project_ =>
               match user_, project_ with
               | Some u, Some p =>
                   match get_or_create u p w2 with
                   | (Return _, w3) =>
                       (Return (HttpResponseRedirect (get_success_url request)), w3)
                   | (Raise e, w3) => (Raise e, w3)
                   end
               | _, _ =>
                   (Return (HttpResponseRedirect (get_success_url request)), w2)
               end
           end
       end.
Proof.
  unfold post, bind at 1.
  destruct (get_user_run request w) as [qs1 [-> Hqs1]].
  destruct (resolve_user request (users (db w))) as [user_ | e].
  2:{ exists qs1. split; [ exact Hqs1 | reflexivity ]. }
  unfold bind at 1.
  destruct (get_project_run request {| db := db w; queries := queries w ++ qs1 |})
    as [qs2 [-> Hqs2]].
  cbn [db queries]. rewrite <- app_assoc.
  exists (qs1 ++ qs2). split; [ now apply Forall_app | ].
  destruct (resolve_project request (projects (db w))) as [project_ | e];
    [ | reflexivity ].
  unfold bind, ret.
  destruct user_ as [u |], project_ as [p |]; try reflexivity.
  now destruct (get_or_create u p _) as [[[r b] | e] w3].
Qed.

(** One post for a resolved pair: it answers with the redirect, and adds
    the pair to the table exactly when the table does not have it. *)
Lemma post_resolved request w u p :
  (List.length (relationships_of (user_pk u) (project_pk p)
                  (relationships (db w))) <= 1)%nat ->
  resolve_user request (users (db w)) = Return (Some u) ->
  resolve_project request (projects (db w)) = Return (Some p) ->
  fst (post request w) = redirect_to_success request
  /\ db (snd (post request w)) =
     match relationships_of (user_pk u) (project_pk p) (relationships (db w)) with
     | [] => created u p (db w)
     | _ :: _ => db w
     end.
Proof.
  intros Hlen Hu Hp.
  destruct (post_run request w) as [qs [_ Hpost]]. cbv zeta in Hpost.
  rewrite Hu, Hp, get_or_create_run in Hpost. cbn [db] in Hpost.
  rewrite Hpost.
  destruct (relationships_of _ _ (relationships (db w))) as [| r [| r' rest]].
  - split; reflexivity.
  - split; reflexivity.
  - simpl in Hlen. lia.
Qed.

Lemma created_relationships_of u p d user_id project_id :
  relationships_of user_id project_id (relationships (created u p d))
  = relationships_of user_id project_id (relationships d)
    ++ (if (user_pk u =? user_id) && (project_pk p =? project_id)
        then [{| relationship_pk := next_pk (relationships d);
                 relationship_user := user_pk u;
                 relationship_project := project_pk p |}]
        else []).
Proof.
  unfold created. cbn [relationships]. rewrite relationships_of_app.
  reflexivity.
Qed.

Lemma created_unique_together u p d :
  relationships_of (user_pk u) (project_pk p) (relationships d) = [] ->
  unique_together d -> unique_together (created u p d).
Proof.
  intros Hnone Huniq user_id project_id.
  rewrite created_relationships_of, length_app.
  specialize (Huniq user_id project_id).
  destruct ((user_pk u =? user_id) && (project_pk p =? project_id)) eqn:Hsame.
  - apply andb_true_iff in Hsame as [Hu Hp].
    apply Z.eqb_eq in Hu, Hp. subst. rewrite Hnone. simpl. lia.
  - simpl. lia.
Qed.

(** Once the pair is stored, a further post changes nothing in the store. *)
Lemma post_times_fixed request u p d :
  List.length (relationships_of (user_pk u) (project_pk p) (relationships d)) = 1%nat ->
  resolve_user request (users d) = Return (Some u) ->
  resolve_project request (projects d) = Return (Some p) ->
  forall n w, db w = d -> db (post_times n request w) = d.
Proof.
  intros Hone Hu Hp. induction n as [| n IH]; intros w Hw; simpl.
  - exact Hw.
  - apply IH. subst d.
    destruct (post_resolved request w u p) as [_ Hdb]; try assumption; try lia.
    rewrite Hdb.
    destruct (relationships_of _ _ (relationships (db w))); [ discriminate | reflexivity ].
Qed.

(** C7. Let the store hold at most one relationship per pair, and let a
    create request resolve to the user [u] and the project [p]. The first
    post answers with the redirect and leaves exactly one relationship for
    the pair; the store still holds at most one relationship per pair; a
    second post answers the same and any number of further posts leave
    the store as the first one left it. *)
Theorem create_relationship_idempotent
    (request : Request) (w : World) (u : User) (p : Project) :
  unique_together (db w) ->
  fst (get_user request w) = Return (Some u) ->
  fst (get_project request w) = Return (Some p) ->
  let w1 := snd (post request w) in
  fst (post request w) = redirect_to_success request
  /\ List.length (relationships_of (user_pk u) (project_pk p)
                    (relationships (db w1))) = 1%nat
  /\ unique_together (db w1)
  /\ fst (post request w1) = redirect_to_success request
  /\ db (snd (post request w1)) = db w1
  /\ forall n, db (post_times n request w1) = db w1.
Proof.
  intros Huniq Hu Hp w1. rewrite get_user_fst in Hu. rewrite get_project_fst in Hp.
  destruct (post_resolved request w u p (Huniq _ _) Hu Hp) as [Hfst Hdb].
  fold w1 in Hdb.
  assert (Hone : List.length (relationships_of (user_pk u) (project_pk p)
                                (relationships (db w1))) = 1%nat).
  { rewrite Hdb.
    destruct (relationships_of _ _ (relationships (db w))) as [| r rest] eqn:Hrel.
    - rewrite created_relationships_of, Hrel, !Z.eqb_refl. reflexivity.
    - rewrite Hrel. specialize (Huniq (user_pk u) (project_pk p)).
      rewrite Hrel in Huniq. simpl in *. lia. }
  assert (Huniq1 : unique_together (db w1)).
  { rewrite Hdb.
    destruct (relationships_of _ _ (relationships (db w))) eqn:Hrel;
      [ now apply created_unique_together | exact Huniq ]. }
  assert (Htables : users (db w1) = users (db w)
                    /\ projects (db w1) = projects (db w)).
  { rewrite Hdb. now destruct (relationships_of _ _ (relationships (db w))). }
  destruct Htables as [Husers Hprojects].
  rewrite <- Husers in Hu. rewrite <- Hprojects in Hp.
  split; [ exact Hfst | ]. split; [ exact Hone | ]. split; [ exact Huniq1 | ].
  destruct (post_resolved request w1 u p (Huniq1 _ _) Hu Hp) as [Hfst1 Hdb1].
  split; [ exact Hfst1 | ].
  split.
  - rewrite Hdb1.
    destruct (relationships_of _ _ (relationships (db w1))); [ discriminate | reflexivity ].
  - intros n. now apply (post_times_fixed request u p).
Qed.

(** C9, as the code has it. Let a create request name no user, or no
    project: no id is given and the selection form yields none. Then the
    post creates nothing: the store is left as it was and only reading
    queries are sent. The answer is the redirect to the success URL, except
    when an id is given for the other one and names no stored row: then it
    is the not-found failure. *)
Theorem post_without_user_or_project (request : Request) (w : World) :
  absent_user request (db w) \/ absent_project request (db w) ->
  exists qs,
    Forall is_select qs
    /\ post request w
       = (if names_no_user request (db w) || names_no_project request (db w)
          then Raise Http404
          else redirect_to_success request,
          {| db := db w; queries := queries w ++ qs |}).
Proof.
  intros Habsent.
  destruct (post_run request w) as [qs [Hqs Hpost]]. cbv zeta in Hpost.
  exists qs. split; [ exact Hqs | ].
  rewrite Hpost. clear Hpost.
  unfold resolve_user, resolve_project, names_no_user, names_no_project,
    absent_user, absent_project, redirect_to_success in *.
  destruct (REQUEST_get "user_id" (REQUEST request)) as [user_id |];
    destruct (REQUEST_get "project_id" (REQUEST request)) as [project_id |].
  - destruct Habsent as [[Hid _] | [Hid _]]; discriminate.
  - destruct Habsent as [[Hid _] | [_ Hform]]; [ discriminate | ].
    rewrite Hform.
    now destruct (find _ (users (db w))).
  - destruct Habsent as [[_ Hform] | [Hid _]]; [ | discriminate ].
    rewrite Hform.
    now destruct (find _ (projects (db w))).
  - destruct Habsent as [[_ Hform] | [_ Hform]]; rewrite Hform.
    + reflexivity.
    + now destruct (SelectUserForm_get_user _ _).
Qed.

(** The store is left as it was whenever the user or the project is
    absent, also when the other lookup fails. *)
Lemma post_absent_keeps_store (request : Request) (w : World) :
  fst (get_user request w) = Return None
  \/ fst (get_project request w) = Return None ->
  db (snd (post request w)) = db w.
Proof.
  rewrite get_user_fst, get_project_fst. intros Habsent.
  destruct (post_run request w) as [qs [_ Hpost]]. cbv zeta in Hpost.
  rewrite Hpost.
  destruct (resolve_user request (users (db w))) as [[u |] | e];
    destruct (resolve_project request (projects (db w))) as [[p |] | e'];
    try reflexivity; destruct Habsent; discriminate.
Qed.

(** C8. The edit and delete views find their relationship by the
    [user_id] and [project_id] parameters of the request alone: the
    arguments of the URL and the query set handed in play no part; when
    the table has no row for the pair the not-found failure is raised; and
    when it has one (the store keeping at most one per pair) that row is
    returned, whatever its primary key. *)
Theorem get_object_by_user_and_project
    (self : RelationshipView) (queryset : option (list ProjectRelationship))
    (w : World) :
  let user_id := REQUEST_get "user_id" (REQUEST (view_request self)) in
  let project_id := REQUEST_get "project_id" (REQUEST (view_request self)) in
  (forall self' queryset',
      REQUEST_get "user_id" (REQUEST (view_request self')) = user_id ->
      REQUEST_get "project_id" (REQUEST (view_request self')) = project_id ->
      get_object self' queryset' w = get_object self queryset w)
  /\ ((forall r, In r (relationships (db w)) ->
         user_id = Some (relationship_user r) ->
         project_id = Some (relationship_project r) -> False) ->
      get_object self queryset w
      = (Raise Http404, logged (Select ModelProjectRelationship) w))
  /\ (forall r,
         unique_together (db w) ->
         In r (relationships (db w)) ->
         user_id = Some (relationship_user r) ->
         project_id = Some (relationship_project r) ->
         get_object self queryset w
         = (Return r, logged (Select ModelProjectRelationship) w)).
Proof.
  intros user_id project_id.
  assert (Hrun : get_object self queryset w =
                 match user_id, project_id with
                 | Some u, Some p =>
                     match relationships_of u p (relationships (db w)) with
                     | [] => (Raise Http404, logged (Select ModelProjectRelationship) w)
                     | [r] => (Return r, logged (Select ModelProjectRelationship) w)
                     | _ :: _ :: _ =>
                         (Raise MultipleObjectsReturned,
                          logged (Select ModelProjectRelationship) w)
                     end
                 | _, _ => (Raise Http404, logged (Select ModelProjectRelationship) w)
                 end).
  { unfold get_object, get_object_or_404_ProjectRelationship.
    fold user_id project_id.
    unfold bind, query, read_db, ret, raise, logged. simpl.
    destruct user_id as [u |], project_id as [p |]; try reflexivity.
    now destruct (relationships_of u p (relationships (db w))) as [| r [| r' rest]]. }
  split; [ | split ].
  - intros self' queryset' Hu Hp. unfold get_object. subst user_id project_id.
    now rewrite Hu, Hp.
  - intros Hnone. rewrite Hrun.
    destruct user_id as [u |], project_id as [p |]; try reflexivity.
    destruct (relationships_of u p (relationships (db w))) as [| r rest] eqn:Hrel;
      [ reflexivity | exfalso ].
    assert (Hr : In r (relationships_of u p (relationships (db w))))
      by (rewrite Hrel; now left).
    apply relationships_of_In in Hr as [Hin [Hru Hrp]].
    apply (Hnone r Hin); congruence.
  - intros r Huniq Hin Hu Hp. rewrite Hrun, Hu, Hp.
    now rewrite (relationships_of_singleton _ _ _ r (Huniq _ _) Hin eq_refl eq_refl).
Qed.
End RelationshipProperties.

(** * The views on a small store *)

Module Examples.
Import Fixtures.

(** Four weeks give four buckets; the last one ends a microsecond before
    the end of the range. *)
Example get_weeks_four_weeks :
  get_weeks (env := example_env) alice_view =
  [((0, "UTC"), (7 * day - 1, "UTC"));
   ((7 * day, "UTC"), (14 * day - 1, "UTC"));
   ((14 * day, "UTC"), (21 * day - 1, "UTC"));
   ((21 * day, "UTC"), (28 * day - 1, "UTC"))].
Proof. vm_compute. reflexivity. Qed.

(** A range that stops after ten days takes two buckets. *)
Example weeks_loop_ten_days :
  weeks_loop (fun d => d) (10 * day) 0 [] =
  [(0, 7 * day - 1); (7 * day, 14 * day - 1)].
Proof. vm_compute. reflexivity. Qed.

(** Alice's finished entries of the range, by end time: ids 3 and 1. *)
Example get_month_entries_alice :
  get_month_entries (env := example_env) alice_view store = [3; 1].
Proof. vm_compute. reflexivity. Qed.

Example project_timesheet_context :
  let context :=
    ProjectTimesheet_get_context_data (env := example_env) website alice_asks store in
  context_total context = Some 775
  /\ context_user_entries context = [(("Alice", "Ames"), 675); (("Bob", "Burke"), 100)]
  /\ context_activity_entries context = [("Design", 650); ("Review", 125)].
Proof. vm_compute. repeat split; reflexivity. Qed.

Example csv_of_two_entries :
  List.length
    (convert_context_to_csv (env := example_env)
       (ProjectTimesheet_get_context_data (env := example_env)
          website alice_asks store)) = 7%nat.
Proof. vm_compute. reflexivity. Qed.

(** C2, counterexample. With no entry for the project in the month the
    total of the context is [None], not the number 0 that the per-user
    sums and the per-activity sums add up to. *)
Lemma project_timesheet_total_of_no_entries :
  let context :=
    ProjectTimesheet_get_context_data (env := example_env)
      website alice_asks empty_store in
  context_total context = None
  /\ Sum (map snd (context_user_entries context)) = 0
  /\ Sum (map snd (context_activity_entries context)) = 0.
Proof. vm_compute. repeat split; reflexivity. Qed.

(** C4, counterexample. Alice, who lacks the summary permission, asks for
    Bob's timesheet: she is rejected, but only after the query that looks
    Bob up and the two reads of the permission tables. Asking for a user
    that does not exist, she gets the not-found failure instead of the
    forbidden one. *)
Lemma timesheet_lookup_precedes_rejection :
  ViewUserTimesheetAjax_dispatch (env := example_env) alice_asks 2 world
  = (Raise PermissionDenied,
     {| db := store;
        queries := [Select ModelUser; Select ModelPermission;
                    Select ModelPermission] |})
  /\ ViewUserTimesheetAjax_dispatch (env := example_env) alice_asks 99 world
     = (Raise Http404, {| db := store; queries := [Select ModelUser] |}).
Proof. split; reflexivity. Qed.

(** C9, counterexample. No user is given and the form selects none, so
    the resolved user is absent; the request names project 99, which does
    not exist. The answer is the not-found failure, not the redirect. *)
Lemma post_absent_user_unknown_project :
  let request := request_of (Authenticated carol) [] [("project_id", 99)] in
  fst (get_user (env := example_env) request world) = Return None
  /\ post (env := example_env) request world
     = (Raise Http404, {| db := store; queries := [Select ModelProject] |}).
Proof. split; reflexivity. Qed.

(** C10, counterexample. The query string [year=next] does not validate.
    The context of the request carries the form bound to it; the context of
    the request without a query string carries no bound form. *)
Lemma invalid_selection_form_in_context :
  YearMonthForm_is_valid (Collaborators := example_env) (GET bad_selection) = false
  /\ context_year_month_form
       (ProjectTimesheet_get_context_data (env := example_env)
          website bad_selection store)
     = Some [("year", "next")]
  /\ context_year_month_form
       (ProjectTimesheet_get_context_data (env := example_env)
          website (without_parameters bad_selection) store)
     = None.
Proof. repeat split; reflexivity. Qed.
End Examples.

(** * The theorems with premises, at concrete requests *)

Module Witnesses.
Import Fixtures.

(** Alice, without the permission, asking for Bob's timesheet and for her
    own. *)
Lemma dispatch_own_timesheet_or_permission_witness :
  UserTimesheetMixin_dispatch (env := example_env)
    ViewUserTimesheetAjax_get alice_asks 2 world
  = (Raise PermissionDenied, checked (env := example_env) alice_asks world)
  /\ exists data w',
       ViewUserTimesheetAjax_dispatch (env := example_env) alice_asks 1 world
       = (Return (HttpResponseJSON data), w')
       /\ db w' = db world.
Proof.
  split.
  - apply (dispatch_own_timesheet_or_permission
             (env := example_env) alice_asks 2 world bob eq_refl);
      reflexivity.
  - apply (dispatch_own_timesheet_or_permission
             (env := example_env) alice_asks 1 world alice eq_refl).
    reflexivity.
Defined.

(** Alice, who lacks the permission, asks for Bob's timesheet and for the
    timesheet of user 99. *)
Lemma rejected_before_further_data_access_witness :
  UserTimesheetMixin_dispatch (env := example_env)
    ViewUserTimesheetAjax_get alice_asks 2 world
  = (Raise PermissionDenied, checked (env := example_env) alice_asks world)
  /\ UserTimesheetMixin_dispatch (env := example_env)
       ViewUserTimesheetAjax_get alice_asks 99 world
     = (Raise Http404, logged (Select ModelUser) world).
Proof.
  destruct (rejected_before_further_data_access (env := example_env)
              alice_asks 2 world) as [_ [Hdenied _]].
  destruct (rejected_before_further_data_access (env := example_env)
              alice_asks 99 world) as [Hmissing _].
  split.
  - apply (Hdenied bob); reflexivity.
  - apply Hmissing. reflexivity.
Defined.

(** A query string that is not a year/month selection. *)
Lemma invalid_selection_falls_back_to_current_month_witness :
  context_from_date
    (ProjectTimesheet_get_context_data (env := example_env)
       website bad_selection store) = 0
  /\ context_to_date
       (ProjectTimesheet_get_context_data (env := example_env)
          website bad_selection store) = 29
  /\ context_total
       (ProjectTimesheet_get_context_data (env := example_env)
          website bad_selection store)
     = context_total
         (ProjectTimesheet_get_context_data (env := example_env)
            website (without_parameters bad_selection) store).
Proof.
  pose proof (invalid_selection_falls_back_to_current_month
                (env := example_env) website bad_selection store
                eq_refl eq_refl) as H.
  cbv zeta in H.
  destruct H as ((Hstart & Hend & _) & (_ & _ & _ & Htotal & _) & _).
  split; [ exact Hstart | split; [ exact Hend | exact Htotal ] ].
Defined.

Lemma store_unique_together : unique_together store.
Proof. intros user_id project_id. simpl. lia. Defined.

(** Adding Alice to the project, once and then three times more. *)
Lemma create_relationship_idempotent_witness :
  List.length
    (relationships_of 1 10
       (relationships
          (db (snd (post (env := example_env) add_alice_to_website world)))))
  = 1%nat
  /\ db (post_times (env := example_env) 3 add_alice_to_website
           (snd (post (env := example_env) add_alice_to_website world)))
     = db (snd (post (env := example_env) add_alice_to_website world)).
Proof.
  pose proof (create_relationship_idempotent (env := example_env)
                add_alice_to_website world alice website
                store_unique_together eq_refl eq_refl) as H.
  cbv zeta in H. destruct H as (_ & Hone & _ & _ & _ & Hfixed).
  split; [ exact Hone | exact (Hfixed 3%nat) ].
Defined.

(** A create request that names the website project, which is stored, and
    no user. *)
Lemma post_without_user_or_project_witness :
  exists qs,
    post (env := example_env) MoreFixtures.add_nobody_to_website world
    = (redirect_to_success (env := example_env) MoreFixtures.add_nobody_to_website,
       {| db := db world; queries := queries world ++ qs |})
    /\ Forall is_select qs.
Proof.
  destruct (post_without_user_or_project (env := example_env)
              MoreFixtures.add_nobody_to_website world
              (or_introl (conj eq_refl eq_refl)))
    as [qs [Hqs Hpost]].
  exists qs. split; [ exact Hpost | exact Hqs ].
Defined.

(** The relationship of Alice is found through the pair, the URL naming
    another key; for Bob, who has none, the lookup fails, the URL naming
    the key of Alice's. *)
Lemma get_object_by_user_and_project_witness :
  get_object edit_alice_on_website None world_with_relationship
  = (Return alice_on_website,
     logged (Select ModelProjectRelationship) world_with_relationship)
  /\ get_object edit_bob_on_website None world_with_relationship
     = (Raise Http404,
        logged (Select ModelProjectRelationship) world_with_relationship).
Proof.
  split.
  - apply (proj2 (proj2 (get_object_by_user_and_project
                           edit_alice_on_website None world_with_relationship))).
    + intros user_id project_id. unfold relationships_of. simpl.
      match goal with |- context [if ?c then _ else _] => destruct c end; simpl; lia.
    + now left.
    + reflexivity.
    + reflexivity.
  - apply (proj1 (proj2 (get_object_by_user_and_project
                           edit_bob_on_website None world_with_relationship))).
    intros r [<- | []] Hu _. discriminate Hu.
Defined.
End Witnesses.

(** * Further properties *)

(** ** Who reaches a timesheet view *)

Section FurtherTimesheetProperties.
Context {env : Collaborators}.

(** X1. A requester who holds [entries.view_entry_summary] is handed to the
    view for the timesheet of any stored user, their own or not (for their
    own the permission is not even checked). *)
Theorem dispatch_with_summary_permission
    (request : Request) (user_id : Z) (w : World) (target : User) :
  find (fun u => user_pk u =? user_id) (users (db w)) = Some target ->
  has_perm (user request) "entries.view_entry_summary" = true ->
  forall super_dispatch,
    UserTimesheetMixin_dispatch super_dispatch request user_id w =
    super_dispatch (view_of request target) request
      (if requester_eq (user request) target
       then logged (Select ModelUser) w
       else checked request w).
Proof.
  intros Hfind Hperm super_dispatch.
  rewrite UserTimesheetMixin_dispatch_run, Hfind, Hperm.
  now destruct (requester_eq (user request) target).
Qed.

(** X2. An unauthenticated request never reaches the view, whatever user it
    asks for: it fails after the lookup of the user, with the forbidden
    failure if the user exists and with the not-found failure if not. *)
Theorem dispatch_rejects_anonymous
    (request : Request) (user_id : Z) (w : World) :
  user request = AnonymousUser ->
  forall super_dispatch,
    UserTimesheetMixin_dispatch super_dispatch request user_id w =
    (Raise (match find (fun u => user_pk u =? user_id) (users (db w)) with
            | Some _ => PermissionDenied
            | None => Http404
            end),
     logged (Select ModelUser) w).
Proof.
  intros Hanon super_dispatch.
  rewrite UserTimesheetMixin_dispatch_run. unfold checked. rewrite Hanon.
  now destruct (find _ (users (db w))).
Qed.

(** X3. Asking for the timesheet of a user that is not stored fails with
    the not-found failure for every requester, also one who holds the
    permission; the view is not run. *)
Theorem dispatch_unknown_user (request : Request) (user_id : Z) (w : World) :
  find (fun u => user_pk u =? user_id) (users (db w)) = None ->
  forall super_dispatch,
    UserTimesheetMixin_dispatch super_dispatch request user_id w =
    (Raise Http404, logged (Select ModelUser) w).
Proof.
  intros Hfind super_dispatch.
  now rewrite UserTimesheetMixin_dispatch_run, Hfind.
Qed.

(** X4. The JSON timesheet view only reads. Whatever the request, the
    tables are left as they were. The first query is the lookup of the
    target user; the only others are the reads of the permission tables
    that the permission check makes and, when the request is answered and
    only then, one query on the entries, which comes last. *)
Theorem ajax_dispatch_read_only (request : Request) (user_id : Z) (w : World) :
  db (snd (ViewUserTimesheetAjax_dispatch request user_id w)) = db w
  /\ exists reads,
       Forall (eq (Select ModelPermission)) reads
       /\ queries (snd (ViewUserTimesheetAjax_dispatch request user_id w))
          = queries w ++ Select ModelUser :: reads
            ++ match fst (ViewUserTimesheetAjax_dispatch request user_id w) with
               | Return _ => [Select ModelEntry]
               | Raise _ => []
               end.
Proof.
  assert (Hreads : Forall (eq (Select ModelPermission))
                          (has_perm_queries (user request))).
  { unfold has_perm_queries. destruct (user request) as [| u]; [ constructor | ].
    apply Forall_forall. intros q Hq. symmetry. now apply repeat_spec in Hq. }
  assert (Hget : forall self w0,
            ViewUserTimesheetAjax_get self request w0
            = (Return (HttpResponseJSON
                         (ViewUserTimesheetAjax_get_context_data self (db w0))),
               {| db := db w0; queries := queries w0 ++ [Select ModelEntry] |})).
  { intros self w0. reflexivity. }
  unfold ViewUserTimesheetAjax_dispatch.
  rewrite UserTimesheetMixin_dispatch_run.
  destruct (find _ (users (db w))) as [target |].
  2:{ split; [ reflexivity | ]. exists []. split; [ constructor | reflexivity ]. }
  destruct (requester_eq (user request) target).
  - rewrite Hget. split; [ reflexivity | ].
    exists []. split; [ constructor | ]. simpl. now rewrite <- app_assoc.
  - destruct (has_perm (user request) "entries.view_entry_summary").
    + rewrite Hget. split; [ reflexivity | ].
      exists (has_perm_queries (user request)). split; [ exact Hreads | ].
      simpl. now rewrite <- app_assoc.
    + split; [ reflexivity | ].
      exists (has_perm_queries (user request)). split; [ exact Hreads | ].
      simpl. now rewrite app_nil_r.
Qed.

(** ** More on the week buckets *)

Lemma get_weeks_buckets (self : TimesheetView) :
  get_weeks self =
  map (fun k => localize add_timezone
                  (bucket (fst (get_extended_month_range (month_form self))) k))
      (seq 0 (weeks_count (fst (get_extended_month_range (month_form self)))
                          (snd (get_extended_month_range (month_form self))))).
Proof.
  unfold get_weeks.
  destruct (get_extended_month_range (month_form self)) as [start end_].
  cbn [fst snd]. now rewrite (weeks_loop_buckets _ _ _ _ _ eq_refl).
Qed.

Lemma weeks_count_zero start end_ : weeks_count start end_ = 0%nat <-> end_ <= start.
Proof.
  split; [ | apply weeks_count_done ].
  intros Hzero. destruct (Z_lt_dec start end_) as [Hlt | Hge]; [ | lia ].
  rewrite (weeks_count_step _ _ Hlt) in Hzero. discriminate.
Qed.

(** X5. The number of week buckets is the length of the extended range in
    weeks, rounded up; there is no bucket at all exactly when the range is
    empty, its end being at or before its start. *)
Theorem get_weeks_length (self : TimesheetView) :
  let start := fst (get_extended_month_range (month_form self)) in
  let end_ := snd (get_extended_month_range (month_form self)) in
  List.length (get_weeks self)
  = Z.to_nat ((end_ - start + relativedelta_days 7 - 1) / relativedelta_days 7)
  /\ (get_weeks self = [] <-> end_ <= start).
Proof.
  cbv zeta. rewrite get_weeks_buckets, length_map, length_seq.
  split; [ reflexivity | ].
  rewrite <- weeks_count_zero.
  destruct (weeks_count _ _); simpl; split; congruence.
Qed.

Lemma weeks_count_whole start n : weeks_count start (start + Z.of_nat n * week) = n.
Proof.
  unfold weeks_count. pose proof week_pos.
  replace (start + Z.of_nat n * week - start + week - 1)
    with ((week - 1) + Z.of_nat n * week) by lia.
  rewrite Z.div_add by lia. rewrite Z.div_small by lia. lia.
Qed.

(** X6. When the extended range is a whole number [n] of weeks, there are
    exactly [n] buckets and the last one ends one microsecond before the
    end of the range. *)
Theorem get_weeks_whole_weeks (self : TimesheetView) (n : nat) :
  snd (get_extended_month_range (month_form self))
  = fst (get_extended_month_range (month_form self))
    + Z.of_nat n * relativedelta_days 7 ->
  let start := fst (get_extended_month_range (month_form self)) in
  let end_ := snd (get_extended_month_range (month_form self)) in
  List.length (get_weeks self) = n
  /\ ((0 < n)%nat ->
      nth_error (weeks_loop (fun d => d) end_ start []) (n - 1)
      = Some (end_ - relativedelta_days 7, end_ - relativedelta_microseconds 1)).
Proof.
  intros Hend. cbv zeta.
  rewrite get_weeks_buckets, length_map, length_seq, weeks_loop_naive, Hend.
  fold week. rewrite weeks_count_whole.
  split; [ reflexivity | ].
  intros Hn. rewrite nth_error_map, nth_error_seq.
  destruct (Nat.ltb_spec (n - 1) n); [ | lia ].
  cbn [option_map].
  unfold bucket, week, relativedelta_microseconds, relativedelta_days,
    microseconds_per_day.
  do 2 f_equal; lia.
Qed.

(** X7. The month entries and the week buckets together: an entry the
    month's query selects falls in a week bucket, except in one case: it
    ends exactly at the end of the range and the range is a whole number of
    weeks; then no bucket holds it. *)
Theorem selected_entry_in_a_week (self : TimesheetView) (e : Entry) (t : datetime) :
  selected self e ->
  entry_end_time e = Some t ->
  let start := fst (get_extended_month_range (month_form self)) in
  let end_ := snd (get_extended_month_range (month_form self)) in
  (exists k b, nth_error (weeks_loop (fun d => d) end_ start []) k = Some b
               /\ within b t)
  <-> (t < end_ \/ (end_ - start) mod week <> 0).
Proof.
  intros [_ [t' [Ht' Hrange]]] Ht. rewrite Ht in Ht'. injection Ht' as <-.
  cbv zeta.
  set (start := fst (get_extended_month_range (month_form self))) in *.
  set (end_ := snd (get_extended_month_range (month_form self))) in *.
  pose proof week_pos as Hw.
  destruct (Z_lt_dec t end_) as [Hlt | Hge].
  - split; [ intros _; now left | intros _ ].
    rewrite weeks_loop_naive.
    exists (Z.to_nat ((t - start) / week)),
           (bucket start (Z.to_nat ((t - start) / week))).
    assert (0 <= (t - start) / week) by (apply Z.div_pos; lia).
    split.
    + rewrite nth_error_map, nth_error_seq.
      pose proof (weeks_count_covers start end_ t ltac:(lia)).
      destruct (Nat.ltb_spec (Z.to_nat ((t - start) / week)) (weeks_count start end_));
        [ reflexivity | lia ].
    + apply within_bucket. lia.
  - assert (t = end_) by lia. subst t.
    destruct (Z_lt_dec start end_) as [Hne | Hempty].
    + rewrite (get_weeks_end_instant start end_ Hne). split; [ now right | ].
      intros [Hlt | Hmod]; [ lia | exact Hmod ].
    + assert (end_ = start) by lia.
      split.
      * intros [k [b [Hk _]]]. rewrite weeks_loop_naive in Hk.
        apply nth_error_buckets in Hk as [Hk _].
        rewrite weeks_count_done in Hk by lia. lia.
      * intros [Hlt | Hmod]; [ lia | ].
        exfalso. apply Hmod. replace (end_ - start) with 0 by lia. reflexivity.
Qed.
End FurtherTimesheetProperties.

(** ** The grouped sums of the project timesheet *)

Lemma StronglySorted_weaken {A} (R R' : A -> A -> Prop) (l : list A) :
  (forall a b, R a b -> R' a b) -> StronglySorted R l -> StronglySorted R' l.
Proof.
  intros Himpl. induction 1 as [| x rest _ IH Hall]; constructor.
  - exact IH.
  - eapply Forall_impl; [ | exact Hall ]. intros y. apply Himpl.
Qed.

Lemma order_by_sum_descending {K} (groups : list (K * Z)) :
  StronglySorted sum_descending (order_by by_sum_descending groups).
Proof.
  apply (StronglySorted_weaken (fun a b => by_sum_descending a b = true)).
  - intros a b Hab. now apply Z.leb_le in Hab.
  - apply order_by_sorted; unfold by_sum_descending.
    + intros a b Hab. apply Z.leb_gt in Hab. apply Z.leb_le. lia.
    + intros a b c Hab Hbc. apply Z.leb_le in Hab, Hbc. apply Z.leb_le. lia.
Qed.

Section Grouping.
Context {K : Type} (key_eqb : K -> K -> bool) (key : Entry -> K).
Hypothesis key_eqb_eq : forall a b, key_eqb a b = true <-> a = b.

(** The sum listed for the key [k], if there is one; whether there is one. *)
Definition group_sum (k : K) (groups : list (K * Z)) : Z :=
  match find (fun kv => key_eqb (fst kv) k) groups with
  | Some (_, s) => s
  | None => 0
  end.

Definition has_group (k : K) (groups : list (K * Z)) : bool :=
  existsb (fun kv => key_eqb (fst kv) k) groups.

Lemma key_eqb_refl a : key_eqb a a = true.
Proof. now apply key_eqb_eq. Qed.

Lemma key_eqb_neq a b : key_eqb a b = false <-> a <> b.
Proof.
  split.
  - intros Hf Heq. apply key_eqb_eq in Heq. congruence.
  - intros Hne. destruct (key_eqb a b) eqn:Hab; [ | reflexivity ].
    apply key_eqb_eq in Hab. contradiction.
Qed.

Lemma key_eqb_sym a b : key_eqb a b = key_eqb b a.
Proof.
  destruct (key_eqb a b) eqn:Hab; symmetry.
  - apply key_eqb_eq in Hab. subst. apply key_eqb_refl.
  - apply key_eqb_neq in Hab. apply key_eqb_neq. congruence.
Qed.

Lemma has_group_In k groups : has_group k groups = true <-> In k (map fst groups).
Proof.
  unfold has_group. rewrite existsb_exists, in_map_iff. split.
  - intros [kv [Hin Heq]]. apply key_eqb_eq in Heq. now exists kv.
  - intros [kv [Heq Hin]]. exists kv. split; [ exact Hin | now apply key_eqb_eq ].
Qed.

Lemma add_to_group_sum k h groups k' :
  group_sum k' (add_to_group key_eqb k h groups)
  = if key_eqb k k' then group_sum k groups + h else group_sum k' groups.
Proof.
  unfold group_sum.
  induction groups as [| [k1 s] rest IH]; simpl.
  - destruct (key_eqb k k'); reflexivity.
  - destruct (key_eqb k1 k) eqn:H1k; simpl.
    + apply key_eqb_eq in H1k. subst k1.
      destruct (key_eqb k k'); reflexivity.
    + destruct (key_eqb k1 k') eqn:H1k'.
      * apply key_eqb_eq in H1k'. subst k1.
        now rewrite (key_eqb_sym k k'), H1k.
      * exact IH.
Qed.

Lemma add_to_group_has k h groups k' :
  has_group k' (add_to_group key_eqb k h groups)
  = key_eqb k k' || has_group k' groups.
Proof.
  unfold has_group.
  induction groups as [| [k1 s] rest IH]; simpl.
  - now rewrite orb_false_r.
  - destruct (key_eqb k1 k) eqn:H1k; simpl.
    + apply key_eqb_eq in H1k. subst k1.
      destruct (key_eqb k k'); reflexivity.
    + rewrite IH. destruct (key_eqb k1 k'), (key_eqb k k'); reflexivity.
Qed.

Lemma add_to_group_keys k h groups :
  map fst (add_to_group key_eqb k h groups)
  = if has_group k groups then map fst groups else map fst groups ++ [k].
Proof.
  unfold has_group.
  induction groups as [| [k1 s] rest IH]; simpl; [ reflexivity | ].
  destruct (key_eqb k1 k); simpl; [ reflexivity | ].
  rewrite IH. now destruct (existsb _ rest).
Qed.

Lemma add_to_group_NoDup k h groups :
  NoDup (map fst groups) -> NoDup (map fst (add_to_group key_eqb k h groups)).
Proof.
  intros Hnd. rewrite add_to_group_keys.
  destruct (has_group k groups) eqn:Hhas; [ exact Hnd | ].
  apply NoDup_app; [ exact Hnd | repeat constructor; intros [] | ].
  intros x Hx [<- | []].
  apply has_group_In in Hx. congruence.
Qed.

Lemma group_In k s groups :
  NoDup (map fst groups) ->
  In (k, s) groups <-> has_group k groups = true /\ group_sum k groups = s.
Proof.
  unfold has_group, group_sum.
  induction groups as [| [k1 s1] rest IH]; simpl; intros Hnd.
  - split; [ intros [] | intros [Hf _]; discriminate ].
  - inversion Hnd as [| ? ? Hnotin Hnd']; subst.
    destruct (key_eqb k1 k) eqn:H1k.
    + apply key_eqb_eq in H1k. subst k1. simpl. split.
      * intros [Heq | Hin]; [ injection Heq as <-; now split | ].
        exfalso. apply Hnotin. apply in_map_iff. now exists (k, s).
      * intros [_ <-]. now left.
    + simpl. rewrite <- (IH Hnd'). split; [ | now right ].
      intros [Heq | Hin]; [ | exact Hin ].
      injection Heq as -> ->. rewrite key_eqb_refl in H1k. discriminate.
Qed.

Lemma hours_of_cons e qs k :
  hours_of key_eqb key k (e :: qs)
  = (if key_eqb (key e) k then entry_hours e else 0) + hours_of key_eqb key k qs.
Proof.
  unfold hours_of. simpl. destruct (key_eqb (key e) k); simpl; lia.
Qed.

(** The groups after a run over [qs], starting from [groups]. *)
Lemma fold_groups qs : forall groups k,
  let result :=
    fold_left (fun groups e => add_to_group key_eqb (key e) (entry_hours e) groups)
              qs groups in
  group_sum k result = group_sum k groups + hours_of key_eqb key k qs
  /\ has_group k result
     = has_group k groups || existsb (fun e => key_eqb (key e) k) qs.
Proof.
  induction qs as [| e qs IH]; intros groups k; cbv zeta; simpl.
  - unfold hours_of. simpl. rewrite orb_false_r. split; [ lia | reflexivity ].
  - destruct (IH (add_to_group key_eqb (key e) (entry_hours e) groups) k)
      as [Hsum Hhas].
    rewrite Hsum, Hhas, add_to_group_sum, add_to_group_has, hours_of_cons.
    split.
    + destruct (key_eqb (key e) k) eqn:Hek; [ | lia ].
      apply key_eqb_eq in Hek. rewrite Hek. lia.
    + destruct (key_eqb (key e) k), (has_group k groups); reflexivity.
Qed.

Lemma fold_groups_NoDup qs : forall groups,
  NoDup (map fst groups) ->
  NoDup (map fst
           (fold_left
              (fun groups e => add_to_group key_eqb (key e) (entry_hours e) groups)
              qs groups)).
Proof.
  induction qs as [| e qs IH]; intros groups Hnd; simpl.
  - exact Hnd.
  - apply IH. now apply add_to_group_NoDup.
Qed.

(** What [values(key).annotate(sum=Sum('hours')).order_by('-sum')] lists:
    the larger sums first, every key once, and with each key that occurs in
    [qs] the hours of the entries that carry it. *)
Lemma annotate_order_by_groups qs :
  let listed := order_by by_sum_descending
                  (values_annotate_Sum_hours key_eqb key qs) in
  StronglySorted sum_descending listed
  /\ NoDup (map fst listed)
  /\ forall k s,
       In (k, s) listed
       <-> (exists e, In e qs /\ key e = k) /\ s = hours_of key_eqb key k qs.
Proof.
  cbv zeta.
  pose proof (order_by_Permutation by_sum_descending
                (values_annotate_Sum_hours key_eqb key qs)) as Hperm.
  assert (Hnodup : NoDup (map fst (values_annotate_Sum_hours key_eqb key qs))).
  { unfold values_annotate_Sum_hours. apply fold_groups_NoDup. constructor. }
  split; [ | split ].
  - apply order_by_sum_descending.
  - eapply Permutation_NoDup; [ | exact Hnodup ].
    symmetry. now apply Permutation_map.
  - intros k s.
    assert (Hin : In (k, s) (order_by by_sum_descending
                               (values_annotate_Sum_hours key_eqb key qs))
                  <-> In (k, s) (values_annotate_Sum_hours key_eqb key qs)).
    { split; apply Permutation_in; [ exact Hperm | now symmetry ]. }
    rewrite Hin, (group_In _ _ _ Hnodup).
    unfold values_annotate_Sum_hours.
    destruct (fold_groups qs [] k) as [Hsum Hhas].
    rewrite Hsum, Hhas. simpl. rewrite existsb_exists.
    split.
    + intros [[e [He Hk]] <-]. apply key_eqb_eq in Hk.
      split; [ now exists e | unfold group_sum; simpl; lia ].
    + intros [[e [He Hk]] ->].
      split; [ exists e; split; [ exact He | now apply key_eqb_eq ] | ].
      unfold group_sum. simpl. lia.
Qed.
End Grouping.

Lemma name_eqb_eq (a b : string * string) : name_eqb a b = true <-> a = b.
Proof.
  unfold name_eqb. destruct a as [a1 a2], b as [b1 b2]. simpl.
  rewrite andb_true_iff, !String.eqb_eq. split.
  - intros [-> ->]. reflexivity.
  - intros Heq. injection Heq as -> ->. now split.
Qed.

Section FurtherProjectTimesheetProperties.
Context {env : Collaborators}.

(** X8. The per-user rows of the project timesheet list the larger sums
    first and every name once; a first and last name is listed exactly when
    an entry of the month is by a user of that name, and its sum is the sum
    of the hours of all entries by users of that name (users who share both
    names are counted together). *)
Theorem user_entries_grouped_and_sorted
    (project : Project) (request : Request) (d : DB) :
  let context := ProjectTimesheet_get_context_data project request d in
  let qs := project_month_entries project (context_from_date context) d in
  StronglySorted sum_descending (context_user_entries context)
  /\ NoDup (map fst (context_user_entries context))
  /\ forall name s,
       In (name, s) (context_user_entries context)
       <-> (exists e, In e qs /\ user_name e = name)
           /\ s = hours_of name_eqb user_name name qs.
Proof.
  unfold ProjectTimesheet_get_context_data.
  destruct (report_range request) as [from_date to_date]. cbn.
  exact (annotate_order_by_groups name_eqb user_name name_eqb_eq
           (project_month_entries project from_date d)).
Qed.

(** X9. The per-activity rows of the project timesheet list the larger sums
    first and every activity name once; an activity is listed exactly when
    an entry of the month has it, and its sum is the sum of the hours of the
    entries that have it. *)
Theorem activity_entries_grouped_and_sorted
    (project : Project) (request : Request) (d : DB) :
  let context := ProjectTimesheet_get_context_data project request d in
  let qs := project_month_entries project (context_from_date context) d in
  StronglySorted sum_descending (context_activity_entries context)
  /\ NoDup (map fst (context_activity_entries context))
  /\ forall activity s,
       In (activity, s) (context_activity_entries context)
       <-> (exists e, In e qs /\ entry_activity_name e = activity)
           /\ s = hours_of String.eqb entry_activity_name activity qs.
Proof.
  unfold ProjectTimesheet_get_context_data.
  destruct (report_range request) as [from_date to_date]. cbn.
  exact (annotate_order_by_groups String.eqb entry_activity_name String.eqb_eq
           (project_month_entries project from_date d)).
Qed.

(** X10. Every row of the CSV export has eight cells, like the header. *)
Theorem csv_rows_have_eight_cells (context : ProjectTimesheetContext) :
  Forall (fun row => List.length row = 8%nat) (convert_context_to_csv context).
Proof.
  unfold convert_context_to_csv. rewrite fold_left_append.
  apply Forall_app; split; [ apply Forall_app; split | ].
  - simpl. constructor; [ reflexivity | constructor ].
  - apply Forall_forall. intros row Hrow.
    apply in_map_iff in Hrow as [entry [<- _]]. reflexivity.
  - constructor; [ reflexivity | constructor ].
Qed.

(** X11. The export of a month without entries of the project, the
    [date_trunc] of no entry being no row: the header row and the [Total:]
    row, whose last cell is empty because the total is [None]. *)
Theorem csv_of_no_entries (project : Project) (request : Request) (d : DB) :
  date_trunc [] = [] ->
  project_month_entries project (fst (report_range request)) d = [] ->
  convert_context_to_csv (ProjectTimesheet_get_context_data project request d)
  = [[CellStr "Date"; CellStr "User"; CellStr "Activity"; CellStr "Location";
      CellStr "Time In"; CellStr "Time Out"; CellStr "Breaks"; CellStr "Hours"];
     [CellStr ""; CellStr ""; CellStr ""; CellStr ""; CellStr ""; CellStr "";
      CellStr "Total:"; CellNone]].
Proof.
  intros Htrunc Hnone.
  unfold convert_context_to_csv, ProjectTimesheet_get_context_data.
  destruct (report_range request) as [from_date to_date]. cbn in *.
  now rewrite Hnone, Htrunc.
Qed.
End FurtherProjectTimesheetProperties.

(** ** The CSV switch of the project timesheet *)

Lemma QueryDict_pop_contains key data :
  QueryDict_contains key (QueryDict_pop key data) = false.
Proof.
  unfold QueryDict_contains, QueryDict_pop.
  induction data as [| [k v] rest IH]; simpl; [ reflexivity | ].
  destruct (String.eqb k key) eqn:Hk; simpl; [ exact IH | ].
  now rewrite Hk.
Qed.

Lemma QueryDict_pop_In key data k v :
  In (k, v) (QueryDict_pop key data) <-> In (k, v) data /\ k <> key.
Proof.
  unfold QueryDict_pop. rewrite filter_In. simpl.
  rewrite negb_true_iff, String.eqb_neq. tauto.
Qed.

Section ProjectTimesheetGetProperties.
Context {env : Collaborators} {urls : UrlHelpers}.

(** X12. A request for the project timesheet with the [csv] parameter is
    answered, when the project exists, by a redirect to the CSV view of the
    project; the query string passed on holds the other parameters of the
    request with their values and no [csv] parameter; only the project has
    been queried. When the project does not exist the answer is the
    not-found failure. *)
Theorem get_with_csv_redirects (request : Request) (project_id : Z) (w : World) :
  QueryDict_contains "csv" (GET request) = true ->
  exists passed_on,
    ProjectTimesheet_get request project_id w =
      match find (fun p => project_pk p =? project_id) (projects (db w)) with
      | Some project =>
          (Return (redirect (reverse_view_project_timesheet_csv (project_pk project)
                             ++ "?" ++ urlencode passed_on)%string),
           logged (Select ModelProject) w)
      | None => (Raise Http404, logged (Select ModelProject) w)
      end
    /\ QueryDict_contains "csv" passed_on = false
    /\ forall k v, In (k, v) passed_on <-> In (k, v) (GET request) /\ k <> "csv".
Proof.
  intros Hcsv. exists (QueryDict_pop "csv" (GET request)).
  split; [ | split ].
  - unfold ProjectTimesheet_get. rewrite Hcsv.
    unfold bind at 1. rewrite get_object_or_404_Project_run.
    now destruct (find _ (projects (db w))).
  - apply QueryDict_pop_contains.
  - intros k v. apply QueryDict_pop_In.
Qed.

(** X13. A request without the [csv] parameter is never redirected: it is
    answered with the rendered context of the project, or fails with the
    not-found failure. In particular the request the redirect of X12 leads
    to, whose query string is the original one without [csv], is not
    redirected again. *)
Theorem get_without_csv_renders (request : Request) (project_id : Z) (w : World) :
  let follow_up := with_query (QueryDict_pop "csv" (GET request)) request in
  (QueryDict_contains "csv" (GET request) = false ->
   ProjectTimesheet_get request project_id w =
     match find (fun p => project_pk p =? project_id) (projects (db w)) with
     | Some project =>
         (Return (render_to_response
                    (ProjectTimesheet_get_context_data project request (db w))),
          {| db := db w;
             queries := queries w ++ [Select ModelProject; Select ModelEntry] |})
     | None => (Raise Http404, logged (Select ModelProject) w)
     end)
  /\ ProjectTimesheet_get follow_up project_id w =
     match find (fun p => project_pk p =? project_id) (projects (db w)) with
     | Some project =>
         (Return (render_to_response
                    (ProjectTimesheet_get_context_data project follow_up (db w))),
          {| db := db w;
             queries := queries w ++ [Select ModelProject; Select ModelEntry] |})
     | None => (Raise Http404, logged (Select ModelProject) w)
     end.
Proof.
  assert (Hplain : forall r, QueryDict_contains "csv" (GET r) = false ->
            ProjectTimesheet_get r project_id w =
            match find (fun p => project_pk p =? project_id) (projects (db w)) with
            | Some project =>
                (Return (render_to_response
                           (ProjectTimesheet_get_context_data project r (db w))),
                 {| db := db w;
                    queries := queries w ++ [Select ModelProject; Select ModelEntry] |})
            | None => (Raise Http404, logged (Select ModelProject) w)
            end).
  { intros r Hr. unfold ProjectTimesheet_get. rewrite Hr.
    unfold bind at 1. rewrite get_object_or_404_Project_run.
    destruct (find _ (projects (db w))) as [project |]; [ | reflexivity ].
    unfold bind, query, read_db, ret, logged. simpl.
    now rewrite <- app_assoc. }
  cbv zeta. split; [ apply Hplain | ].
  apply Hplain. simpl. apply QueryDict_pop_contains.
Qed.
End ProjectTimesheetGetProperties.

(** ** More on the relationship views *)

Section FurtherRelationshipProperties.
Context {env : Collaborators}.

(** What a post does to the store: nothing, or the addition of the row of
    the resolved pair, which then was not there. *)
Lemma post_store (request : Request) (w : World) :
  db (snd (post request w)) = db w
  \/ exists u p,
       resolve_user request (users (db w)) = Return (Some u)
       /\ resolve_project request (projects (db w)) = Return (Some p)
       /\ relationships_of (user_pk u) (project_pk p) (relationships (db w)) = []
       /\ db (snd (post request w)) = created u p (db w)
       /\ fst (post request w) = redirect_to_success request.
Proof.
  destruct (post_run request w) as [qs [_ Hpost]]. cbv zeta in Hpost.
  rewrite Hpost. clear Hpost.
  destruct (resolve_user request (users (db w))) as [[u |] | e];
    [ | destruct (resolve_project request (projects (db w))) as [[p |] | e];
        now left
      | now left ].
  destruct (resolve_project request (projects (db w))) as [[p |] | e];
    [ | now left | now left ].
  rewrite get_or_create_run. cbn [db].
  destruct (relationships_of (user_pk u) (project_pk p) (relationships (db w)))
    as [| r [| r' rest]] eqn:Hrel; [ | now left | now left ].
  right. exists u, p. repeat split; try reflexivity. exact Hrel.
Qed.

(** X14. A create request touches nothing but the relationship table, and
    that table either stays as it is or gains, at its end, the one row of
    the resolved user and project, which had no row before; in the second
    case the answer is the redirect. In particular a post that fails leaves
    the whole store as it was. *)
Theorem post_adds_at_most_one_relationship (request : Request) (w : World) :
  users (db (snd (post request w))) = users (db w)
  /\ projects (db (snd (post request w))) = projects (db w)
  /\ entries (db (snd (post request w))) = entries (db w)
  /\ (relationships (db (snd (post request w))) = relationships (db w)
      \/ exists u p,
           fst (get_user request w) = Return (Some u)
           /\ fst (get_project request w) = Return (Some p)
           /\ relationships_of (user_pk u) (project_pk p) (relationships (db w)) = []
           /\ relationships (db (snd (post request w)))
              = relationships (db w) ++ [new_relationship u p (relationships (db w))]
           /\ fst (post request w) = redirect_to_success request).
Proof.
  rewrite get_user_fst, get_project_fst.
  destruct (post_store request w) as [Hdb | [u [p [Hu [Hp [Hrel [Hdb Hfst]]]]]]];
    rewrite Hdb.
  - repeat split; try reflexivity. now left.
  - repeat split; try reflexivity.
    right. exists u, p. repeat split; assumption.
Qed.

(** X15. Posting keeps the store's rule of at most one relationship per
    (user, project) pair, whatever the request. *)
Theorem post_keeps_unique_together (request : Request) (w : World) :
  unique_together (db w) -> unique_together (db (snd (post request w))).
Proof.
  intros Huniq.
  destruct (post_store request w) as [Hdb | [u [p [_ [_ [Hrel [Hdb _]]]]]]];
    rewrite Hdb.
  - exact Huniq.
  - now apply created_unique_together.
Qed.

(** X16. Create, then look up. After a post that resolved a user and a
    project, on a store with at most one relationship per pair, the edit and
    delete views asked for that pair find a relationship of that user and
    that project. *)
Theorem get_object_after_post
    (request : Request) (w : World) (u : User) (p : Project)
    (self : RelationshipView) (queryset : option (list ProjectRelationship)) :
  unique_together (db w) ->
  fst (get_user request w) = Return (Some u) ->
  fst (get_project request w) = Return (Some p) ->
  REQUEST_get "user_id" (REQUEST (view_request self)) = Some (user_pk u) ->
  REQUEST_get "project_id" (REQUEST (view_request self)) = Some (project_pk p) ->
  exists r,
    fst (get_object self queryset (snd (post request w))) = Return r
    /\ relationship_user r = user_pk u
    /\ relationship_project r = project_pk p
    /\ In r (relationships (db (snd (post request w)))).
Proof.
  intros Huniq Hu Hp Huser Hproject.
  rewrite get_user_fst in Hu. rewrite get_project_fst in Hp.
  destruct (post_resolved request w u p (Huniq _ _) Hu Hp) as [_ Hdb].
  set (w1 := snd (post request w)) in *.
  assert (Hone : exists r, relationships_of (user_pk u) (project_pk p)
                             (relationships (db w1)) = [r]).
  { rewrite Hdb.
    destruct (relationships_of _ _ (relationships (db w))) as [| r rest] eqn:Hrel.
    - rewrite created_relationships_of, Hrel, !Z.eqb_refl. simpl. now eexists.
    - rewrite Hrel. specialize (Huniq (user_pk u) (project_pk p)).
      rewrite Hrel in Huniq. destruct rest; [ now exists r | simpl in Huniq; lia ]. }
  destruct Hone as [r Hr]. exists r.
  assert (Hin : In r (relationships_of (user_pk u) (project_pk p)
                        (relationships (db w1)))) by (rewrite Hr; now left).
  apply relationships_of_In in Hin as [Hin [Hru Hrp]].
  repeat split; try assumption.
  unfold get_object, get_object_or_404_ProjectRelationship.
  rewrite Huser, Hproject.
  unfold bind, query, read_db, ret. simpl. now rewrite Hr.
Qed.

(** X17. A relationship the edit and delete views find is a stored row of
    the pair named by the request, and the only one; finding it has cost
    one reading query and changed nothing. *)
Theorem get_object_returns_row_of_pair
    (self : RelationshipView) (queryset : option (list ProjectRelationship))
    (w w' : World) (r : ProjectRelationship) :
  get_object self queryset w = (Return r, w') ->
  In r (relationships (db w))
  /\ REQUEST_get "user_id" (REQUEST (view_request self)) = Some (relationship_user r)
  /\ REQUEST_get "project_id" (REQUEST (view_request self))
     = Some (relationship_project r)
  /\ relationships_of (relationship_user r) (relationship_project r)
       (relationships (db w)) = [r]
  /\ w' = logged (Select ModelProjectRelationship) w.
Proof.
  unfold get_object, get_object_or_404_ProjectRelationship.
  unfold bind, query, read_db, ret, raise, logged. simpl.
  destruct (REQUEST_get "user_id" _) as [user_id |]; [ | discriminate ].
  destruct (REQUEST_get "project_id" _) as [project_id |]; [ | discriminate ].
  destruct (relationships_of user_id project_id (relationships (db w)))
    as [| r1 [| r2 rest]] eqn:Hrel; try discriminate.
  intros Heq. injection Heq as -> <-.
  assert (Hin : In r (relationships_of user_id project_id (relationships (db w))))
    by (rewrite Hrel; now left).
  apply relationships_of_In in Hin as [Hin [<- <-]].
  repeat split; try assumption; reflexivity.
Qed.

(** X18. When the request lacks the [user_id] or the [project_id]
    parameter, the edit and delete views fail with the not-found failure,
    whatever the relationship table holds. *)
Theorem get_object_missing_parameter
    (self : RelationshipView) (queryset : option (list ProjectRelationship))
    (w : World) :
  REQUEST_get "user_id" (REQUEST (view_request self)) = None
  \/ REQUEST_get "project_id" (REQUEST (view_request self)) = None ->
  get_object self queryset w
  = (Raise Http404, logged (Select ModelProjectRelationship) w).
Proof.
  intros Hmissing.
  unfold get_object, get_object_or_404_ProjectRelationship.
  unfold bind, query, read_db, ret, raise, logged. simpl.
  destruct Hmissing as [-> | ->]; [ reflexivity | ].
  now destruct (REQUEST_get "user_id" _).
Qed.

(** X19. The transaction around the create view never has anything to
    undo: whenever the post fails the tables are as they were, so wrapping
    it in [commit_on_success] changes neither its answer nor the world it
    leaves. *)
Theorem commit_on_success_post (request : Request) (w : World) :
  commit_on_success (post request) w = post request w.
Proof.
  unfold commit_on_success.
  destruct (post_store request w) as [Hdb | [u [p [_ [_ [_ [_ Hfst]]]]]]].
  - destruct (post request w) as [[response | e] w1]; [ reflexivity | ].
    simpl in Hdb. rewrite <- Hdb. now destruct w1.
  - destruct (post request w) as [[response | e] w1]; [ reflexivity | ].
    discriminate Hfst.
Qed.
End FurtherRelationshipProperties.

Module MoreExamples.
Import Fixtures MoreFixtures.

(** Both entries of the boundary store are returned, the one that ends at
    the very end of the four weeks last; but no week bucket holds that
    instant. *)
Example boundary_entry_is_returned :
  get_month_entries (env := example_env) alice_view store_with_boundary_entry
  = [2; 1].
Proof. vm_compute. reflexivity. Qed.

Example boundary_instant_in_no_week :
  existsb (fun b => (fst b <=? 28 * day) && (28 * day <=? snd b))
          (weeks_loop (fun d => d) (relativedelta_days 28) 0 []) = false.
Proof. vm_compute. reflexivity. Qed.

(** Two users called Alice Ames are listed as one. *)
Example same_name_one_row :
  let namesake :=
    {| user_pk := 9; first_name := "Alice"; last_name := "Ames";
       user_permissions := [] |} in
  let d :=
    {| users := [alice; namesake]; projects := [website]; relationships := [];
       entries := [entry 1 alice "Design" (Some day) 100;
                   entry 2 namesake "Design" (Some day) 50] |} in
  context_user_entries
    (ProjectTimesheet_get_context_data (env := example_env) website alice_asks d)
  = [(("Alice", "Ames"), 150)].
Proof. vm_compute. reflexivity. Qed.
End MoreExamples.

(** * The further theorems with premises, at concrete requests *)

Module MoreWitnesses.
Import Fixtures MoreFixtures.

(** Carol, who holds the permission, asks for Alice's timesheet. *)
Lemma dispatch_with_summary_permission_witness :
  UserTimesheetMixin_dispatch (env := example_env)
    ViewUserTimesheetAjax_get carol_asks 1 world
  = ViewUserTimesheetAjax_get (env := example_env)
      (view_of (env := example_env) carol_asks alice) carol_asks
      (checked (env := example_env) carol_asks world).
Proof.
  apply (dispatch_with_summary_permission (env := example_env)
           carol_asks 1 world alice eq_refl eq_refl).
Defined.

(** Nobody in particular asks for Alice's timesheet. *)
Lemma dispatch_rejects_anonymous_witness :
  UserTimesheetMixin_dispatch (env := example_env)
    ViewUserTimesheetAjax_get anonymous_asks 1 world
  = (Raise PermissionDenied, logged (Select ModelUser) world).
Proof.
  exact (dispatch_rejects_anonymous (env := example_env)
           anonymous_asks 1 world eq_refl ViewUserTimesheetAjax_get).
Defined.

(** Carol asks for the timesheet of user 99. *)
Lemma dispatch_unknown_user_witness :
  UserTimesheetMixin_dispatch (env := example_env)
    ViewUserTimesheetAjax_get carol_asks 99 world
  = (Raise Http404, logged (Select ModelUser) world).
Proof.
  exact (dispatch_unknown_user (env := example_env)
           carol_asks 99 world eq_refl ViewUserTimesheetAjax_get).
Defined.

(** The range of the example form is four weeks long. *)
Lemma get_weeks_whole_weeks_witness :
  List.length (get_weeks (env := example_env) alice_view) = 4%nat.
Proof.
  exact (proj1 (get_weeks_whole_weeks (env := example_env) alice_view 4 eq_refl)).
Defined.

(** An entry of Alice that ends a microsecond before the end of the range. *)
Lemma selected_entry_in_a_week_witness :
  exists k b,
    nth_error (weeks_loop (fun d => d) (relativedelta_days 28) 0 []) k = Some b
    /\ within b (28 * day - 1).
Proof.
  apply (selected_entry_in_a_week (env := example_env) alice_view
           (entry 2 alice "Design" (Some (28 * day - 1)) 100) (28 * day - 1)).
  - split; [ reflexivity | ].
    exists (28 * day - 1). split; [ reflexivity | ].
    split; discriminate.
  - reflexivity.
  - left. reflexivity.
Defined.

(** The website project in a store without entries. *)
Lemma csv_of_no_entries_witness :
  List.length
    (convert_context_to_csv (env := example_env)
       (ProjectTimesheet_get_context_data (env := example_env)
          website alice_asks empty_store)) = 2%nat.
Proof.
  rewrite (csv_of_no_entries (env := example_env) website alice_asks empty_store
             eq_refl eq_refl).
  reflexivity.
Defined.

(** The request [?csv=1&year=2014] for the website project. *)
Lemma get_with_csv_redirects_witness :
  exists passed_on,
    fst (ProjectTimesheet_get (env := example_env) (urls := example_urls)
           csv_request 10 world)
    = Return (redirect
                ("/project/csv/" ++ "?"
                 ++ urlencode (UrlHelpers := example_urls) passed_on)%string)
    /\ QueryDict_contains "csv" passed_on = false.
Proof.
  destruct (get_with_csv_redirects (env := example_env) (urls := example_urls)
              csv_request 10 world eq_refl) as [passed_on [Hget [Hnone _]]].
  exists passed_on. split; [ | exact Hnone ].
  rewrite Hget. reflexivity.
Defined.

(** Adding Alice to the website keeps one row at most for the pair. *)
Lemma post_keeps_unique_together_witness :
  (List.length
     (relationships_of 1 10
        (relationships
           (db (snd (post (env := example_env) add_alice_to_website world)))))
   <= 1)%nat.
Proof.
  apply (post_keeps_unique_together (env := example_env)
           add_alice_to_website world).
  intros user_id project_id. simpl. lia.
Defined.

(** Alice is added to the website, then her relationship is looked up. *)
Lemma get_object_after_post_witness :
  exists r,
    fst (get_object edit_alice_on_website None
           (snd (post (env := example_env) add_alice_to_website world)))
    = Return r
    /\ relationship_user r = 1
    /\ relationship_project r = 10.
Proof.
  destruct (get_object_after_post (env := example_env)
              add_alice_to_website world alice website
              edit_alice_on_website None)
    as [r [Hget [Hu [Hp _]]]]; try reflexivity.
  - intros user_id project_id. simpl. lia.
  - exists r. repeat split; assumption.
Defined.

(** The relationship found for Alice on the website is the stored one. *)
Lemma get_object_returns_row_of_pair_witness :
  In alice_on_website (relationships (db world_with_relationship))
  /\ relationships_of 1 10 (relationships (db world_with_relationship))
     = [alice_on_website].
Proof.
  destruct (get_object_returns_row_of_pair
              edit_alice_on_website None world_with_relationship
              (logged (Select ModelProjectRelationship) world_with_relationship)
              alice_on_website eq_refl)
    as [Hin [_ [_ [Hone _]]]].
  split; [ exact Hin | exact Hone ].
Defined.

(** An edit request that names a user but no project. *)
Lemma get_object_missing_parameter_witness :
  get_object edit_without_parameters None world_with_relationship
  = (Raise Http404,
     logged (Select ModelProjectRelationship) world_with_relationship).
Proof.
  apply get_object_missing_parameter. right. reflexivity.
Defined.
End MoreWitnesses.
